(** * Docker-Builder: the /build pipeline of backend/app.py

    A shallow embedding of the Flask application in [backend/app.py]:
    the workspace manager ([clean_build_dir]), the repository fetcher
    ([clone_repository]), the recipe synthesiser ([detect_project_type] and
    the Dockerfile generation), the image builder ([build_docker_image]) and
    the HTTP handler ([build_image]).

    Python exceptions are an error monad over an explicit world (the file
    system and the trace of operations attempted on the outside world).
    Everything the program does not decide itself (whether a removal
    succeeds, what [git clone] prints, what the container engine answers,
    how the standard library splits a URL) is read from an environment
    record [Env], so every theorem holds for every behaviour of the outside
    world.  Logging is not modelled. *)

From stdpp Require Import base option list strings gmap fin_maps.
From Stdlib Require Import Ascii ZArith Lia.
From Stdlib Require String.

#[local] Set Warnings "-register-all".

(** ** Python strings *)

Module PyStr.

(** A Python [str] is held as the bytes of its UTF-8 encoding. *)

Definition enc1 (a : nat) : string := String (ascii_of_nat a) EmptyString.
Definition enc2 (a b : nat) : string := String (ascii_of_nat a) (enc1 b).
Definition enc3 (a b c : nat) : string := String (ascii_of_nat a) (enc2 b c).

(** The characters [str.isspace] accepts, each in its encoding: TAB, LF,
    VT, FF, CR, the separators FS, GS, RS, US, the space, U+0085, U+00A0,
    U+1680, U+2000 to U+200A, U+2028, U+2029, U+202F, U+205F and U+3000. *)
Definition whitespace : list string :=
  [ enc1 9; enc1 10; enc1 11; enc1 12; enc1 13;
    enc1 28; enc1 29; enc1 30; enc1 31; enc1 32;
    enc2 194 133; enc2 194 160;
    enc3 225 154 128;
    enc3 226 128 128; enc3 226 128 129; enc3 226 128 130; enc3 226 128 131;
    enc3 226 128 132; enc3 226 128 133; enc3 226 128 134; enc3 226 128 135;
    enc3 226 128 136; enc3 226 128 137; enc3 226 128 138;
    enc3 226 128 168; enc3 226 128 169; enc3 226 128 175;
    enc3 226 129 159;
    enc3 227 128 128 ].

(** [c.isspace()] for the encoding [c] of one character *)
Definition is_space (c : string) : bool := existsb (String.eqb c) whitespace.

(** [s.lstrip()]: a white space character takes one, two or three bytes. *)
Fixpoint lstrip (s : string) : string :=
  match s with
  | EmptyString => EmptyString
  | String a s1 =>
      if is_space (String a EmptyString) then lstrip s1
      else
        match s1 with
        | EmptyString => s
        | String b s2 =>
            if is_space (String a (String b EmptyString)) then lstrip s2
            else
              match s2 with
              | EmptyString => s
              | String c s3 =>
                  if is_space (String a (String b (String c EmptyString)))
                  then lstrip s3
                  else s
              end
        end
  end.

(** [s.rstrip()]: from the right, a character is dropped when all that
    follows it was dropped and it is a white space character. *)
Fixpoint rstrip (s : string) : string :=
  match s with
  | EmptyString => EmptyString
  | String a s' =>
      let r := rstrip s' in
      if is_space (String a r) then EmptyString else String a r
  end.

(** [s.strip()] *)
Definition strip (s : string) : string := rstrip (lstrip s).

Definition lower_ascii (a : ascii) : ascii :=
  let n := nat_of_ascii a in
  if ((65 <=? n) && (n <=? 90))%nat then ascii_of_nat (n + 32) else a.

(** [s.lower()], for the ASCII letters; other characters are kept *)
Fixpoint lower (s : string) : string :=
  match s with
  | EmptyString => EmptyString
  | String a s' => String (lower_ascii a) (lower s')
  end.

(** [needle in hay] *)
Fixpoint contains (needle hay : string) : bool :=
  String.prefix needle hay ||
  match hay with
  | EmptyString => false
  | String _ hay' => contains needle hay'
  end.

(** [s.replace(a, b)] for one-character [a] and [b] *)
Fixpoint replace (a b : ascii) (s : string) : string :=
  match s with
  | EmptyString => EmptyString
  | String c s' => String (if Ascii.eqb c a then b else c) (replace a b s')
  end.

(** truthiness of a string *)
Definition truthy (s : string) : bool :=
  match s with EmptyString => false | _ => true end.

End PyStr.

(** ** JSON values, as [request.get_json()] and [jsonify] see them *)

Inductive json :=
| JNull
| JBool (b : bool)
| JInt (n : Z)
| JFloat (repr : string)
| JStr (s : string)
| JArr (items : list json)
| JObj (members : list (string * json)).

(** A decoded JSON object is a Python dict; its items are kept in order. *)
Abbreviation pydict := (list (string * json)).

Fixpoint dict_get (key : string) (d : pydict) : option json :=
  match d with
  | [] => None
  | (k, v) :: d' => if String.eqb k key then Some v else dict_get key d'
  end.

Definition type_name (v : json) : string :=
  match v with
  | JNull => "NoneType"
  | JBool _ => "bool"
  | JInt _ => "int"
  | JFloat _ => "float"
  | JStr _ => "str"
  | JArr _ => "list"
  | JObj _ => "dict"
  end.

(** ** Exceptions *)

Inductive exn_class :=
| RuntimeError
| ValueError
| AttributeError
| IndexError
| OSError
| CalledProcessError (stderr : string)   (* subprocess: carries [e.stderr] *)
| BuildError                             (* docker.errors.BuildError; [e.msg] is [str(e)] *)
| APIError                               (* docker.errors.APIError *)
| BadRequest                             (* werkzeug.exceptions.BadRequest *)
| OtherException (name : string).

(** An exception object: its class and the text [str(e)] yields. *)
Record exn := Exn { exn_cls : exn_class; exn_str : string }.

Inductive result (A : Type) :=
| Ok (a : A)
| Raise (e : exn).
Arguments Ok {A} a.
Arguments Raise {A} e.

Definition no_attribute (v : json) (attr : string) : exn :=
  Exn AttributeError ("'" +:+ type_name v +:+ "' object has no attribute '" +:+ attr +:+ "'").

(** ** The world: file system and trace *)

(** A directory tree is abstracted to the files at its root: name to content.
    The file system maps the path of each existing directory to its tree.
    Paths are compared as texts: two spellings of one directory ([..],
    symbolic links), the directories inside a tree and the parents that
    [mkdir(parents=True)] creates are outside this abstraction, so nothing
    is stated here about directories other than the workspace. *)
Abbreviation tree := (gmap string string).
Abbreviation filesystem := (gmap string (gmap string string)).

(** Operations attempted on the outside world, oldest first. *)
Inductive event :=
| EvStat (path : string)                         (* Path.exists() *)
| EvRmtree (path : string)                       (* shutil.rmtree(path, ignore_errors=True) *)
| EvMkdir (path : string)                        (* path.mkdir(parents=True, exist_ok=True) *)
| EvSleep (seconds : nat)                        (* time.sleep *)
| EvClone (url dest : string)                    (* git clone --depth 1 url dest *)
| EvWrite (path content : string)                (* open(path, 'w').write(content) *)
| EvEngineBuild (path tag : string) (recipe : option string).
                                                 (* client.images.build; [recipe] is the
                                                    Dockerfile of the build context *)

Record world := World { fs : filesystem; trace : list event }.

Definition log_event (ev : event) (w : world) : world :=
  World (fs w) (trace w ++ [ev]).

Definition set_fs (f : filesystem) (w : world) : world :=
  World f (trace w).

(** ** The monad of the program: state and exceptions *)

Definition M (A : Type) : Type := world → result A * world.

#[global] Instance M_ret : MRet M := λ A a w, (Ok a, w).
#[global] Instance M_bind : MBind M := λ A B f m w,
  match m w with
  | (Ok a, w') => f a w'
  | (Raise e, w') => (Raise e, w')
  end.

Definition raise {A} (e : exn) : M A := λ w, (Raise e, w).

Definition lift_result {A} (r : result A) : M A := λ w, (r, w).

(** [try: body  except Exception as e: handler e] *)
Definition try_except {A} (body : M A) (handler : exn → M A) : M A := λ w,
  match body w with
  | (Ok a, w') => (Ok a, w')
  | (Raise e, w') => handler e w'
  end.

(** [try: body  finally: final].  The final block always runs; when it
    raises, its exception replaces the outcome of the body. *)
Definition try_finally {A} (body : M A) (final : M unit) : M A := λ w,
  match body w with
  | (r, w') =>
      match final w' with
      | (Ok _, w'') => (r, w'')
      | (Raise e, w'') => (Raise e, w'')
      end
  end.

Definition emit (ev : event) : M unit := λ w, (Ok tt, log_event ev w).

(** ** The outside world *)

(** Outcome of [shutil.rmtree(path, ignore_errors=True)]: the call never
    raises; either the tree is gone, or the error was swallowed and the
    directory is still there with the files [keep] selects. *)
Inductive rm_outcome :=
| Removed
| Survives (keep : string → bool).

Record image := Image { tags : list string }.

(** What [urlparse] returns, as far as the handler reads it. *)
Record parse_result := ParseResult { scheme : string; netloc : string; path : string }.

(** The environment of one process.  The oracles see the trace so far, so the
    same call may be answered differently at different times. *)
Record Env := {
  (** [client]: [true] when [docker.from_env()] and [ping()] succeeded at
      start-up, [false] when [client = None] *)
  client : bool;
  (** [Some e]: [Path.exists()] cannot reach the path and raises [e], an
      [OSError] other than the ones that mean absence (a name that is too
      long, a directory on the way that may not be searched) *)
  stat_error : list event → string → option exn;
  rmtree_outcome : list event → string → rm_outcome;
  (** [Some e]: [mkdir(parents=True, exist_ok=True)] raises [e] *)
  mkdir_error : list event → string → option exn;
  (** [Some e]: opening or writing the file raises [e] *)
  write_error : list event → string → option exn;
  (** [subprocess.run([git, clone, ...], check=True)]: the cloned tree, or the
      exception raised ([CalledProcessError] for a nonzero exit) *)
  git_clone : list event → string → string → result tree;
  (** [client.images.build]: the image and the decoded build log, or the
      exception raised *)
  images_build : list event → string → string → option tree → result (image * list pydict);
  (** [urllib.parse.urlparse] *)
  urlparse : string → result parse_result;
  (** [Path(p).stem] *)
  path_stem : string → string
}.

(** Dockerfile templates *)
Module DOCKERFILE_TEMPLATES.
Definition nl : string := String (ascii_of_nat 10) EmptyString.
Definition dq : string := String (ascii_of_nat 34) EmptyString.
Definition quoted (s : string) : string := dq +:+ s +:+ dq.

Definition static : string :=
  "FROM nginx:alpine" +:+ nl +:+
  "COPY . /usr/share/nginx/html" +:+ nl +:+
  "EXPOSE 80" +:+ nl +:+
  "CMD [" +:+ quoted "nginx" +:+ ", " +:+ quoted "-g" +:+ ", " +:+ quoted "daemon off;" +:+ "]".

Definition node : string :=
  "FROM node:16-alpine" +:+ nl +:+
  "WORKDIR /app" +:+ nl +:+
  "COPY package*.json ./" +:+ nl +:+
  "RUN npm install" +:+ nl +:+
  "COPY . ." +:+ nl +:+
  "CMD [" +:+ quoted "npm" +:+ ", " +:+ quoted "start" +:+ "]".

Definition default : string :=
  "FROM alpine" +:+ nl +:+
  "COPY . /app" +:+ nl +:+
  "WORKDIR /app" +:+ nl +:+
  "CMD [" +:+ quoted "ls" +:+ ", " +:+ quoted "-la" +:+ "]".
End DOCKERFILE_TEMPLATES.

(** The keys of [DOCKERFILE_TEMPLATES] *)
Inductive project_type := Static | Node | Default.

(** [DOCKERFILE_TEMPLATES[project_type]] *)
Definition template (t : project_type) : string :=
  match t with
  | Static => DOCKERFILE_TEMPLATES.static
  | Node => DOCKERFILE_TEMPLATES.node
  | Default => DOCKERFILE_TEMPLATES.default
  end.

(** [build_dir / name] *)
Definition joinpath (dir name : string) : string := dir +:+ "/" +:+ name.

Definition read_file (f : filesystem) (dir name : string) : option string :=
  f !! dir ≫= λ t : tree, t !! name.

(** ** HTTP requests and responses *)

(** The request, as far as the handler reads it: [request.is_json] and the
    decoded body ([None]: the body does not decode as JSON). *)
Record request := Request { is_json : bool; json_body : option json }.

(** What the view function returns: [jsonify(body), status]. *)
Record response := Response { status : nat; body : json }.

(** What the client receives: a status and a JSON body, or the framework's
    error page ([None]). *)
Record http_response := HttpResponse { http_status : nat; http_json : option json }.

Section Program.

Context (env : Env).

(** *** Primitive operations *)

(** [build_dir.exists()].  A directory of the file system is found.  For
    an absent one the answer is [False], unless the path cannot be reached:
    then the error is raised.  Nothing can be created at a path that cannot
    be reached, so the check raises only where [mkdir] fails as well. *)
Definition dir_exists (dir : string) : M bool := λ w,
  let w' := log_event (EvStat dir) w in
  match fs w !! dir with
  | Some _ => (Ok true, w')
  | None =>
      match stat_error env (trace w) dir, mkdir_error env (trace w) dir with
      | Some e, Some _ => (Raise e, w')
      | _, _ => (Ok false, w')
      end
  end.

(** [(build_dir / name).exists()], for the files at the root of the
    workspace: the pipeline asks only after the clone has filled the
    directory, which can then be searched. *)
Definition file_exists (dir name : string) : M bool := λ w,
  (Ok (bool_decide (is_Some (read_file (fs w) dir name))),
   log_event (EvStat (joinpath dir name)) w).

(** [shutil.rmtree(build_dir, ignore_errors=True)] *)
Definition rmtree (dir : string) : M unit := λ w,
  let w' := log_event (EvRmtree dir) w in
  match rmtree_outcome env (trace w) dir with
  | Removed => (Ok tt, set_fs (delete dir (fs w)) w')
  | Survives keep =>
      (Ok tt, set_fs (alter (filter (λ kv : string * string, keep kv.1 = true)) dir (fs w)) w')
  end.

(** [build_dir.mkdir(parents=True, exist_ok=True)] *)
Definition mkdir (dir : string) : M unit := λ w,
  let w' := log_event (EvMkdir dir) w in
  match mkdir_error env (trace w) dir with
  | Some e => (Raise e, w')
  | None =>
      match fs w !! dir with
      | Some _ => (Ok tt, w')
      | None => (Ok tt, set_fs (<[dir := ∅]> (fs w)) w')
      end
  end.

(** [time.sleep(seconds)] *)
Definition sleep (seconds : nat) : M unit := emit (EvSleep seconds).

(** [with open(build_dir / name, 'w') as f: f.write(content)] *)
Definition write_file (dir name content : string) : M unit := λ w,
  let p := joinpath dir name in
  let w' := log_event (EvWrite p content) w in
  match write_error env (trace w) p with
  | Some e => (Raise e, w')
  | None =>
      match fs w !! dir with
      | Some t => (Ok tt, set_fs (<[dir := <[name := content]> t]> (fs w)) w')
      | None =>
          (Raise (Exn OSError ("[Errno 2] No such file or directory: '" +:+ p +:+ "'")), w')
      end
  end.

(** [subprocess.run(['git', 'clone', '--depth', '1', repo_url, str(build_dir)], check=True, ...)] *)
Definition run_git_clone (repo_url dir : string) : M unit := λ w,
  let w' := log_event (EvClone repo_url dir) w in
  match git_clone env (trace w) repo_url dir with
  | Ok t => (Ok tt, set_fs (<[dir := t]> (fs w)) w')
  | Raise e => (Raise e, w')
  end.

(** [client.images.build(path=str(build_dir), tag=tag, rm=True, forcerm=True)] *)
Definition client_images_build (dir tag : string) : M (image * list pydict) := λ w,
  let recipe := read_file (fs w) dir "Dockerfile" in
  (images_build env (trace w) dir tag (fs w !! dir),
   log_event (EvEngineBuild dir tag recipe) w).

(** *** clean_build_dir *)

Definition clean_failed_message (build_dir : string) : string :=
  "Failed to clean build directory after 3 attempts: " +:+ build_dir.

(** One pass of the body of the [try] block. *)
Definition clean_attempt (build_dir : string) : M unit :=
  present ← dir_exists build_dir;
  (if present : bool then rmtree build_dir else mret tt);;
  mkdir build_dir.

(** The [for attempt in range(3)] loop with [attempts] iterations left. *)
Fixpoint clean_loop (attempts : nat) (build_dir : string) : M unit :=
  match attempts with
  | O => raise (Exn RuntimeError (clean_failed_message build_dir))
  | S rest =>
      try_except (clean_attempt build_dir)
                 (λ _, sleep 1;; clean_loop rest build_dir)
  end.

Definition clean_build_dir (build_dir : string) : M unit :=
  clean_loop 3 build_dir.

(** *** clone_repository *)

Definition not_found_message : string :=
  "Repository not found or private (needs access token)".
Definition auth_failed_message : string :=
  "Authentication failed - use HTTPS with token".

(** The [except subprocess.CalledProcessError as e] clause. *)
Definition classify_clone_error (stderr : string) : exn :=
  let error_msg := PyStr.strip stderr in
  if PyStr.contains "Repository not found" error_msg then
    Exn ValueError not_found_message
  else if PyStr.contains "could not read Username" error_msg then
    Exn ValueError auth_failed_message
  else Exn RuntimeError ("Git clone failed: " +:+ error_msg).

Definition clone_repository (repo_url build_dir : string) : M unit := λ w,
  match run_git_clone repo_url build_dir w with
  | (Raise (Exn (CalledProcessError stderr) _), w') =>
      (Raise (classify_clone_error stderr), w')
  | other => other
  end.

(** *** detect_project_type *)

Definition detect_project_type (build_dir : string) : M project_type :=
  has_manifest ← file_exists build_dir "package.json";
  if has_manifest : bool then mret Node
  else
    has_index ← file_exists build_dir "index.html";
    if has_index : bool then mret Static else mret Default.

(** *** build_docker_image *)

(** [v.strip()] on a decoded JSON value: only a [str] has the method. *)
Definition str_strip (v : json) : result string :=
  match v with
  | JStr s => Ok (PyStr.strip s)
  | _ => Raise (no_attribute v "strip")
  end.

(** The list comprehension over [build_logs]. *)
Fixpoint stream_lines (build_logs : list pydict) : result (list string) :=
  match build_logs with
  | [] => Ok []
  | line :: rest =>
      match dict_get "stream" line with
      | None => stream_lines rest
      | Some v =>
          match str_strip v with
          | Raise e => Raise e
          | Ok s =>
              match stream_lines rest with
              | Raise e => Raise e
              | Ok ls => Ok (if PyStr.truthy s then s :: ls else ls)
              end
          end
      end
  end.

(** [l[-20:]] *)
Definition last20 {A} (l : list A) : list A := drop (List.length l - 20) l.

Definition filter_logs (build_logs : list pydict) : result (list string) :=
  match stream_lines build_logs with
  | Ok ls => Ok (last20 ls)
  | Raise e => Raise e
  end.

(** [image.tags[0]] *)
Definition first_tag (img : image) : result string :=
  match tags img with
  | t :: _ => Ok t
  | [] => Raise (Exn IndexError "list index out of range")
  end.

Definition image_tag (repo_name : string) : string :=
  "builder/" +:+ PyStr.replace "."%char "-"%char repo_name +:+ ":latest".

(** Lines 108-113: generate a Dockerfile when the workspace has none. *)
Definition ensure_dockerfile (build_dir : string) : M unit :=
  present ← file_exists build_dir "Dockerfile";
  if present : bool then mret tt
  else
    project_type ← detect_project_type build_dir;
    write_file build_dir "Dockerfile" (template project_type).

(** The body of the [try] block. *)
Definition build_docker_image_try (build_dir repo_name : string) : M (image * list string) :=
  ensure_dockerfile build_dir;;
  '(img, build_logs) ← client_images_build build_dir (image_tag repo_name);
  logs ← lift_result (filter_logs build_logs);
  _ ← lift_result (first_tag img);
  mret (img, logs).

(** The two [except] clauses. *)
Definition build_docker_image_except (e : exn) : M (image * list string) :=
  match exn_cls e with
  | BuildError => raise (Exn RuntimeError ("Docker build failed: " +:+ exn_str e))
  | APIError => raise (Exn RuntimeError "Docker service error")
  | _ => raise e
  end.

Definition build_docker_image (build_dir repo_name : string) : M (image * list string) :=
  if negb (client env) then raise (Exn RuntimeError "Docker service unavailable")
  else try_except (build_docker_image_try build_dir repo_name) build_docker_image_except.

(** *** The /build endpoint *)

Definition error_body (message : string) : json := JObj [("error", JStr message)].

Definition success_body (tag : string) (logs : list string) : json :=
  JObj [("status", JStr "success");
        ("image", JStr tag);
        ("logs", JArr (JStr <$> logs));
        ("run_command", JStr ("docker run -p 8080:80 " +:+ tag))].

(** [request.get_json()]: the decoded body, or [BadRequest] when the body
    does not decode. *)
Definition get_json (req : request) : M json :=
  match json_body req with
  | Some data => mret data
  | None => raise (Exn BadRequest "400 Bad Request: Failed to decode JSON object")
  end.

(** [data.get(key, dflt)] *)
Definition data_get (data : json) (key : string) (dflt : json) : result json :=
  match data with
  | JObj d => Ok (default dflt (dict_get key d))
  | _ => Raise (no_attribute data "get")
  end.

(** Lines 191-196: special handling for GitHub Pages. *)
Definition github_pages_override (repo_url build_dir : string) : M unit :=
  if PyStr.contains "github.io" (PyStr.lower repo_url) then
    present ← file_exists build_dir "Dockerfile";
    if present : bool then mret tt
    else write_file build_dir "Dockerfile" (template Static)
  else mret tt.

(** Lines 188-205: the body of the inner [try]. *)
Definition build_image_try (repo_url repo_name build_dir : string) : M response :=
  clean_build_dir build_dir;;
  clone_repository repo_url build_dir;;
  github_pages_override repo_url build_dir;;
  '(img, logs) ← build_docker_image build_dir repo_name;
  tag ← lift_result (first_tag img);
  mret (Response 200 (success_body tag logs)).

(** Lines 207-209: the inner [except Exception as e]. *)
Definition build_image_except (e : exn) : M response :=
  mret (Response 500 (error_body (exn_str e))).

(** Lines 211-213: the [finally] block. *)
Definition build_image_finally (build_dir : string) : M unit :=
  present ← dir_exists build_dir;
  if present : bool then rmtree build_dir else mret tt.

(** [Path(parsed.path).stem or "unnamed"] *)
Definition repo_name_of (parsed : parse_result) : string :=
  let stem := path_stem env (path parsed) in
  if PyStr.truthy stem then stem else "unnamed".

Definition build_dir_of (repo_name : string) : string := "/tmp/builds/" +:+ repo_name.

(** Lines 187-213: the inner [try ... except ... finally]. *)
Definition build_image_guarded (repo_url repo_name build_dir : string) : M response :=
  try_finally
    (try_except (build_image_try repo_url repo_name build_dir) build_image_except)
    (build_image_finally build_dir).

(** Lines 179-213: the body of the outer [try]. *)
Definition build_image_validated (repo_url : string) : M response :=
  parsed ← lift_result (urlparse env repo_url);
  if negb (PyStr.truthy (scheme parsed) && PyStr.truthy (netloc parsed)) then
    mret (Response 400 (error_body "Invalid repository URL"))
  else
    let repo_name := repo_name_of parsed in
    let build_dir := build_dir_of repo_name in
    build_image_guarded repo_url repo_name build_dir.

Definition build_image (req : request) : M response :=
  if negb (is_json req) then mret (Response 400 (error_body "Request must be JSON"))
  else
    data ← get_json req;
    raw ← lift_result (data_get data "repo_url" (JStr EmptyString));
    repo_url ← lift_result (str_strip raw);
    if negb (PyStr.truthy repo_url) then
      mret (Response 400 (error_body "Missing repo_url"))
    else
      try_except (build_image_validated repo_url)
                 (λ _, mret (Response 500 (error_body "Internal server error"))).

(** What the HTTP client receives.  Flask answers an exception that
    leaves the view function itself: an [HTTPException] with its own
    status, anything else with status 500, both with the standard error
    page instead of a JSON body. *)
Definition flask_dispatch (r : result response) : http_response :=
  match r with
  | Ok resp => HttpResponse (status resp) (Some (body resp))
  | Raise (Exn BadRequest _) => HttpResponse 400 None
  | Raise _ => HttpResponse 500 None
  end.

Definition post_build (req : request) (w : world) : http_response * world :=
  let '(r, w') := build_image req w in (flask_dispatch r, w').

End Program.

(** ** Scenarios: concrete environments *)

Module Scenario.

Fixpoint copies (n : nat) (c : ascii) : string :=
  match n with
  | O => EmptyString
  | S n' => String c (copies n' c)
  end.

(** A repository name of 300 characters *)
Definition long_name : string := copies 300 "a"%char.
Definition long_url : string := "https://github.com/user/" +:+ long_name +:+ ".git".

Definition pages_url : string := "https://github.com/user/my-site.github.io".
Definition missing_url : string := "https://example.com/missing-repo.git".
Definition app_url : string := "https://github.com/user/app.git".

(** [urlparse] and [Path.stem] on the URLs of the scenarios, as the
    standard library answers there; other texts have no scheme. *)
Definition urlparse_table (u : string) : result parse_result :=
  if String.eqb u pages_url then Ok (ParseResult "https" "github.com" "/user/my-site.github.io")
  else if String.eqb u missing_url then Ok (ParseResult "https" "example.com" "/missing-repo.git")
  else if String.eqb u app_url then Ok (ParseResult "https" "github.com" "/user/app.git")
  else if String.eqb u long_url
  then Ok (ParseResult "https" "github.com" ("/user/" +:+ long_name +:+ ".git"))
  else if String.eqb u "http://[" then Raise (Exn ValueError "Invalid IPv6 URL")
  else Ok (ParseResult EmptyString EmptyString u).

Definition stem_table (p : string) : string :=
  if String.eqb p "/user/my-site.github.io" then "my-site.github"
  else if String.eqb p "/missing-repo.git" then "missing-repo"
  else if String.eqb p "/user/app.git" then "app"
  else if String.eqb p ("/user/" +:+ long_name +:+ ".git") then long_name
  else EmptyString.

Definition build_log : list pydict :=
  [ [("stream", JStr "Step 1/4 : FROM nginx:alpine")];
    [("stream", JStr DOCKERFILE_TEMPLATES.nl)];
    [("aux", JObj [("ID", JStr "sha256:0a1b")])];
    [("stream", JStr (" ---> 0a1b" +:+ DOCKERFILE_TEMPLATES.nl))];
    [("stream", JStr "Successfully built 0a1b")] ].

(** A healthy machine: every file operation succeeds, the clone delivers
    [repo], the engine builds and tags the image. *)
Definition healthy (repo : tree) : Env := {|
  client := true;
  stat_error := λ _ _, None;
  rmtree_outcome := λ _ _, Removed;
  mkdir_error := λ _ _, None;
  write_error := λ _ _, None;
  git_clone := λ _ _ _, Ok repo;
  images_build := λ _ _ tag _, Ok (Image [tag], build_log);
  urlparse := urlparse_table;
  path_stem := stem_table
|}.


Definition with_rmtree (rm : list event → string → rm_outcome) (e : Env) : Env := {|
  client := client e;
  stat_error := stat_error e;
  rmtree_outcome := rm;
  mkdir_error := mkdir_error e;
  write_error := write_error e;
  git_clone := git_clone e;
  images_build := images_build e;
  urlparse := urlparse e;
  path_stem := path_stem e
|}.

Definition with_mkdir (mk : list event → string → option exn) (e : Env) : Env := {|
  client := client e;
  stat_error := stat_error e;
  rmtree_outcome := rmtree_outcome e;
  mkdir_error := mk;
  write_error := write_error e;
  git_clone := git_clone e;
  images_build := images_build e;
  urlparse := urlparse e;
  path_stem := path_stem e
|}.

Definition with_git (gc : list event → string → string → result tree) (e : Env) : Env := {|
  client := client e;
  stat_error := stat_error e;
  rmtree_outcome := rmtree_outcome e;
  mkdir_error := mkdir_error e;
  write_error := write_error e;
  git_clone := gc;
  images_build := images_build e;
  urlparse := urlparse e;
  path_stem := path_stem e
|}.

Definition with_stat (st : list event → string → option exn) (e : Env) : Env := {|
  client := client e;
  stat_error := st;
  rmtree_outcome := rmtree_outcome e;
  mkdir_error := mkdir_error e;
  write_error := write_error e;
  git_clone := git_clone e;
  images_build := images_build e;
  urlparse := urlparse e;
  path_stem := path_stem e
|}.

Definition with_images
    (ib : list event → string → string → option tree → result (image * list pydict))
    (e : Env) : Env := {|
  client := client e;
  stat_error := stat_error e;
  rmtree_outcome := rmtree_outcome e;
  mkdir_error := mkdir_error e;
  write_error := write_error e;
  git_clone := git_clone e;
  images_build := ib;
  urlparse := urlparse e;
  path_stem := path_stem e
|}.

(** A machine on which a path whose last name is longer than 255 bytes can
    neither be looked up nor created. *)
Definition name_too_long (p : string) : option exn :=
  if (267 <? String.length p)%nat
  then Some (Exn OSError ("[Errno 36] File name too long: '" +:+ p +:+ "'"))
  else None.

Definition strict_names (e : Env) : Env :=
  with_stat (λ _ p, name_too_long p) (with_mkdir (λ _ p, name_too_long p) e).

Definition site : tree := {[ "index.html" := "<h1>hello</h1>" ]}.
Definition bare : tree := {[ "README.md" := "notes" ]}.
Definition own_recipe : tree :=
  {[ "Dockerfile" := "FROM scratch"; "package.json" := "{}" ]}.

Definition empty_world : world := World ∅ [].

Definition build_request (url : string) : request :=
  Request true (Some (JObj [("repo_url", JStr url)])).

End Scenario.

(** ** Vocabulary of the statements *)

(** A request the handler accepts: a JSON object whose [repo_url] is a
    string that strips to the non-empty text [url], which [urlparse] splits
    into [parsed] with a scheme and a host. *)
Definition accepted (env : Env) (req : request) (url : string) (parsed : parse_result) : Prop :=
  is_json req = true ∧
  (∃ d s, json_body req = Some (JObj d) ∧
          dict_get "repo_url" d = Some (JStr s) ∧ url = PyStr.strip s) ∧
  PyStr.truthy url = true ∧
  urlparse env url = Ok parsed ∧
  PyStr.truthy (scheme parsed) = true ∧
  PyStr.truthy (netloc parsed) = true.

(** The response the inner [try ... except] produces from the outcome of
    its body. *)
Definition answer (r : result response) : response :=
  match r with
  | Ok resp => resp
  | Raise e => Response 500 (error_body (exn_str e))
  end.


(** [extends P w w']: the trace of [w'] is the trace of [w] followed by
    events that all satisfy [P]. *)
Definition extends (P : event → Prop) (w w' : world) : Prop :=
  ∃ evs, trace w' = trace w ++ evs ∧ Forall P evs.

Definition runs_within {A} (P : event → Prop) (m : M A) : Prop :=
  ∀ w r w', m w = (r, w') → extends P w w'.

(** A byte that occurs in the encoding of some white space character. *)
Definition space_byte (a : ascii) : bool :=
  existsb (λ c, existsb (Ascii.eqb a) (String.list_ascii_of_string c)) PyStr.whitespace.

Fixpoint all_space (s : string) : bool :=
  match s with
  | EmptyString => true
  | String a s' => space_byte a && all_space s'
  end.



(** [s.endswith(c)] *)
Fixpoint ends_with (c s : string) : bool :=
  String.eqb c s ||
  match s with
  | EmptyString => false
  | String _ s' => ends_with c s'
  end.

(** [s] starts, respectively ends, with a white space character. *)
Definition space_prefixed (s : string) : bool :=
  existsb (λ c, String.prefix c s) PyStr.whitespace.

Definition space_suffixed (s : string) : bool :=
  existsb (λ c, ends_with c s) PyStr.whitespace.


(** The operations of one attempt of [clean_build_dir] that fails, with the
    sleep that follows it: the existence check raises, or the directory
    creation does, after the removal when the directory was there. *)
Definition failed_attempt (dir : string) (l : list event) : Prop :=
  l = [EvStat dir; EvSleep 1] ∨
  l = [EvStat dir; EvMkdir dir; EvSleep 1] ∨
  l = [EvStat dir; EvRmtree dir; EvMkdir dir; EvSleep 1].

(** The operations of an attempt that succeeds. *)
Definition successful_attempt (dir : string) (l : list event) : Prop :=
  l = [EvStat dir; EvMkdir dir] ∨
  l = [EvStat dir; EvRmtree dir; EvMkdir dir].

(** Removal is effective for [dir]: the directory is absent, or every
    [rmtree] of it succeeds. *)
Definition removal_effective (env : Env) (dir : string) (w : world) : Prop :=
  fs w !! dir = None ∨ ∀ h, rmtree_outcome env h dir = Removed.


(** The image build was requested from the engine. *)
Definition engine_event (ev : event) : Prop :=
  match ev with
  | EvEngineBuild _ _ _ => True
  | _ => False
  end.

(** Nothing is written, and the engine builds from the recipe [c]. *)
Definition recipe_kept (c : string) (ev : event) : Prop :=
  match ev with
  | EvWrite _ _ => False
  | EvEngineBuild _ _ recipe => recipe = Some c
  | _ => True
  end.

(** Whatever is written is [c], and the engine builds from the recipe [c]. *)
Definition recipe_is (c : string) (ev : event) : Prop :=
  match ev with
  | EvWrite _ content => content = c
  | EvEngineBuild _ _ recipe => recipe = Some c
  | _ => True
  end.

(** The log tail as the specification words it: keep the stream events,
    trim each text, drop the empty lines, keep the final 20 lines. *)
Definition stream_of (line : pydict) : option string :=
  match dict_get "stream" line with
  | Some (JStr s) => Some s
  | _ => None
  end.

(** The final [n] elements of a list, in order. *)
Definition final {A} (n : nat) (l : list A) : list A := reverse (take n (reverse l)).

Definition log_tail_spec (build_logs : list pydict) : list string :=
  final 20 (filter (λ s, s ≠ EmptyString) (PyStr.strip <$> omap stream_of build_logs)).


(** ** Vocabulary of the further properties *)

(** The project type that detection assigns to a workspace holding the
    files of [t]. *)
Definition tree_type (t : tree) : project_type :=
  if bool_decide (is_Some (t !! "package.json")) then Node
  else if bool_decide (is_Some (t !! "index.html")) then Static
  else Default.

(** The engine is given a build context that holds a Dockerfile. *)
Definition has_recipe (ev : event) : Prop :=
  match ev with
  | EvEngineBuild _ _ recipe => is_Some recipe
  | _ => True
  end.

(** The operations a build of [url] in the workspace [dir] for the
    repository [name] may perform. *)
Definition confined (url name dir : string) (ev : event) : Prop :=
  match ev with
  | EvStat p =>
      p = dir ∨ p = joinpath dir "Dockerfile" ∨
      p = joinpath dir "package.json" ∨ p = joinpath dir "index.html"
  | EvRmtree p => p = dir
  | EvMkdir p => p = dir
  | EvSleep n => n = 1
  | EvClone u d => u = url ∧ d = dir
  | EvWrite p c => p = joinpath dir "Dockerfile" ∧ ∃ ty, c = template ty
  | EvEngineBuild d t recipe => d = dir ∧ t = image_tag name ∧ is_Some recipe
  end.

(** [m] never removes the directory [dir]. *)
Definition keeps_dir {A} (dir : string) (m : M A) : Prop :=
  ∀ w r w', m w = (r, w') → is_Some (fs w !! dir) → is_Some (fs w' !! dir).


(** ** The other endpoints *)

(** [GET /]: the [home] view. *)
Definition home (env : Env) : response :=
  Response 200
    (JObj [("status", JStr "ready");
           ("endpoints", JObj [("build", JStr "POST /build");
                               ("health", JStr "GET /health")]);
           ("docker_available", JBool (client env))]).

(** [GET /health]: the [health_check] view.  [disk_usage] is the outcome of
    [shutil.disk_usage('/')], reduced to its [free] field; [gb_text free] is
    the text the format [{free / (1024 ** 3):.1f}] produces. *)
Definition health_check (env : Env) (disk_usage : result N) (gb_text : N → string)
    : response :=
  match disk_usage with
  | Ok free =>
      Response 200
        (JObj [("status", JStr "healthy");
               ("disk_space", JStr (gb_text free +:+ "GB free"));
               ("docker", JStr (if client env then "connected" else "disconnected"))])
  | Raise e =>
      Response 500
        (JObj [("status", JStr "unhealthy"); ("error", JStr (exn_str e))])
  end.

(** Every [stream] value of the line is a text. *)
Definition stream_is_text (line : pydict) : Prop :=
  ∀ v, dict_get "stream" line = Some v → ∃ s, v = JStr s.


(** * Properties *)

(** ** Running the monad *)

Lemma run_bind {A B} (m : M A) (f : A → M B) (w : world) :
  (m ≫= f) w =
  match m w with
  | (Ok a, w') => f a w'
  | (Raise e, w') => (Raise e, w')
  end.
Proof. reflexivity. Qed.


(** ** Traces only grow *)

Lemma extends_refl P w : extends P w w.
Proof. exists []. split; [by rewrite app_nil_r | constructor]. Qed.

Lemma extends_trans P w1 w2 w3 :
  extends P w1 w2 → extends P w2 w3 → extends P w1 w3.
Proof.
  intros (e1 & H1 & F1) (e2 & H2 & F2). exists (e1 ++ e2). split.
  - by rewrite H2, H1, app_assoc.
  - by apply Forall_app.
Qed.

Lemma extends_log P ev w : P ev → extends P w (log_event ev w).
Proof. intros H. exists [ev]. split; [done | by repeat constructor]. Qed.

Lemma extends_set_fs P f w w' : extends P w w' → extends P w (set_fs f w').
Proof. intros (evs & H & F). by exists evs. Qed.


Lemma runs_within_ret {A} P (a : A) : runs_within P (mret a).
Proof. intros w r w' [= <- <-]. apply extends_refl. Qed.

Lemma runs_within_raise {A} P e : runs_within P (raise (A := A) e).
Proof. intros w r w' [= <- <-]. apply extends_refl. Qed.

Lemma runs_within_lift {A} P (x : result A) : runs_within P (lift_result x).
Proof. intros w r w' [= <- <-]. apply extends_refl. Qed.

Lemma runs_within_bind {A B} P (m : M A) (f : A → M B) :
  runs_within P m → (∀ a, runs_within P (f a)) → runs_within P (m ≫= f).
Proof.
  intros Hm Hf w r w'. rewrite run_bind.
  destruct (m w) as [[a | e] w1] eqn:E; intros H.
  - eapply extends_trans; [eapply Hm, E | eapply Hf, H].
  - injection H as <- <-. eapply Hm, E.
Qed.

Lemma runs_within_try_except {A} P (m : M A) (h : exn → M A) :
  runs_within P m → (∀ e, runs_within P (h e)) → runs_within P (try_except m h).
Proof.
  intros Hm Hh w r w'. unfold try_except.
  destruct (m w) as [[a | e] w1] eqn:E; intros H.
  - injection H as <- <-. eapply Hm, E.
  - eapply extends_trans; [eapply Hm, E | eapply Hh, H].
Qed.

Lemma runs_within_try_finally {A} P (m : M A) (final : M unit) :
  runs_within P m → runs_within P final → runs_within P (try_finally m final).
Proof.
  intros Hm Hf w r w'. unfold try_finally.
  destruct (m w) as [r1 w1] eqn:E.
  destruct (final w1) as [[[] | e] w2] eqn:E2; intros [= <- <-];
    (eapply extends_trans; [eapply Hm, E | eapply Hf, E2]).
Qed.

Section Traces.

Context (env : Env) (P : event → Prop).

Lemma dir_exists_within dir : P (EvStat dir) → runs_within P (dir_exists env dir).
Proof.
  intros H w r w'. unfold dir_exists.
  destruct (fs w !! dir);
    [| destruct (stat_error env (trace w) dir), (mkdir_error env (trace w) dir)];
    intros [= <- <-]; by apply extends_log.
Qed.

Lemma file_exists_within dir name :
  P (EvStat (joinpath dir name)) → runs_within P (file_exists dir name).
Proof. intros H w r w' [= <- <-]. by apply extends_log. Qed.

Lemma rmtree_within dir : P (EvRmtree dir) → runs_within P (rmtree env dir).
Proof.
  intros H w r w'. unfold rmtree.
  destruct (rmtree_outcome env (trace w) dir); intros [= <- <-];
    by apply extends_set_fs, extends_log.
Qed.

Lemma mkdir_within dir : P (EvMkdir dir) → runs_within P (mkdir env dir).
Proof.
  intros H w r w'. unfold mkdir.
  destruct (mkdir_error env (trace w) dir); [| destruct (fs w !! dir)];
    intros [= <- <-]; try apply extends_set_fs; by apply extends_log.
Qed.

Lemma sleep_within n : P (EvSleep n) → runs_within P (sleep n).
Proof. intros H w r w' [= <- <-]. by apply extends_log. Qed.

Lemma write_file_within dir name content :
  P (EvWrite (joinpath dir name) content) →
  runs_within P (write_file env dir name content).
Proof.
  intros H w r w'. unfold write_file.
  destruct (write_error env (trace w) (joinpath dir name)); [| destruct (fs w !! dir)];
    intros [= <- <-]; try apply extends_set_fs; by apply extends_log.
Qed.

Lemma run_git_clone_within url dir :
  P (EvClone url dir) → runs_within P (run_git_clone env url dir).
Proof.
  intros H w r w'. unfold run_git_clone.
  destruct (git_clone env (trace w) url dir); intros [= <- <-];
    try apply extends_set_fs; by apply extends_log.
Qed.

Lemma clone_repository_within url dir :
  P (EvClone url dir) → runs_within P (clone_repository env url dir).
Proof.
  intros H w r w'. unfold clone_repository.
  destruct (run_git_clone env url dir w) as [r1 w1] eqn:E.
  apply (run_git_clone_within url dir H) in E.
  destruct r1 as [a | [[] msg]]; by intros [= <- <-].
Qed.

Lemma clean_attempt_within dir :
  P (EvStat dir) → P (EvRmtree dir) → P (EvMkdir dir) →
  runs_within P (clean_attempt env dir).
Proof.
  intros H1 H2 H3. unfold clean_attempt.
  apply runs_within_bind; [by apply dir_exists_within |]. intros present.
  apply runs_within_bind; [| intros _; by apply mkdir_within].
  destruct present; [by apply rmtree_within | apply runs_within_ret].
Qed.

Lemma clean_loop_within n dir :
  P (EvStat dir) → P (EvRmtree dir) → P (EvMkdir dir) → P (EvSleep 1) →
  runs_within P (clean_loop env n dir).
Proof.
  intros H1 H2 H3 H4. induction n as [| n IH]; simpl.
  - apply runs_within_raise.
  - apply runs_within_try_except; [by apply clean_attempt_within |].
    intros _. apply runs_within_bind; [by apply sleep_within | by intros _].
Qed.

Lemma build_image_finally_within dir :
  P (EvStat dir) → P (EvRmtree dir) → runs_within P (build_image_finally env dir).
Proof.
  intros H1 H2. unfold build_image_finally.
  apply runs_within_bind; [by apply dir_exists_within |].
  intros []; [by apply rmtree_within | apply runs_within_ret].
Qed.

End Traces.

(** ** The handler on accepted and on rejected requests *)

(** The [finally] block: one check, then one removal when the directory is
    there.  The removal never raises; the check can, but only for a
    directory that is absent. *)
Lemma build_image_finally_run env dir w :
  ∃ r w',
    build_image_finally env dir w = (r, w') ∧
    trace w' = trace w ++ EvStat dir ::
               (if decide (is_Some (fs w !! dir)) then [EvRmtree dir] else []) ∧
    (is_Some (fs w !! dir) → r = Ok tt) ∧
    (fs w !! dir = None ∨
     rmtree_outcome env (trace w ++ [EvStat dir]) dir = Removed →
     fs w' !! dir = None).
Proof.
  unfold build_image_finally. rewrite run_bind. unfold dir_exists.
  destruct (fs w !! dir) as [t |] eqn:Ht.
  - rewrite decide_True by eauto. unfold rmtree. cbn.
    destruct (rmtree_outcome env _ dir) eqn:Hrm; eexists _, _; (split; [reflexivity |]);
      cbn; (split; [by rewrite <- app_assoc |]); (split; [done |]).
    + intros _. apply lookup_delete_eq.
    + by intros [? | ?].
  - rewrite decide_False by (by intros [? ?]).
    destruct (stat_error env (trace w) dir), (mkdir_error env (trace w) dir);
      eexists _, _; (split; [reflexivity |]); cbn; (split; [done |]);
      (split; [by intros [? ?] | done]).
Qed.

Lemma build_image_finally_present env dir w :
  is_Some (fs w !! dir) → fst (build_image_finally env dir w) = Ok tt.
Proof.
  intros H. destruct (build_image_finally_run env dir w) as (r & w' & E & _ & Hr & _).
  rewrite E. cbn. by apply Hr.
Qed.

(** The inner [try ... except ... finally]: when the [finally] block
    returns, the outcome is the response the [try ... except] part computed;
    when it raises, its exception replaces that response.  In both cases the
    world is the one the [finally] block leaves. *)
Lemma build_image_guarded_run env url name dir w :
  build_image_guarded env url name dir w =
  (match fst (build_image_finally env dir (snd (build_image_try env url name dir w))) with
   | Ok _ => Ok (answer (fst (build_image_try env url name dir w)))
   | Raise e => Raise e
   end,
   snd (build_image_finally env dir (snd (build_image_try env url name dir w)))).
Proof.
  unfold build_image_guarded, try_finally, try_except.
  destruct (build_image_try env url name dir w) as [[resp | e] w1]; cbn;
    by destruct (build_image_finally env dir w1) as [[[] | e'] w2].
Qed.

Lemma build_image_accepted env req url parsed w :
  accepted env req url parsed →
  build_image env req w =
  try_except
    (build_image_guarded env url (repo_name_of env parsed)
                         (build_dir_of (repo_name_of env parsed)))
    (λ _, mret (Response 500 (error_body "Internal server error"))) w.
Proof.
  intros (Hj & (d & s & Hb & Hd & ->) & Hu & Hp & Hs & Hn).
  unfold build_image. rewrite Hj. cbn.
  unfold get_json. rewrite Hb. rewrite run_bind. cbn. rewrite Hd. cbn.
  rewrite run_bind. cbn. rewrite run_bind. cbn.
  rewrite Hu. cbn. unfold try_except, build_image_validated.
  rewrite run_bind. cbn. by rewrite Hp, Hs, Hn.
Qed.

(** The answer to an accepted request: the response of the pipeline, or
    the generic one when the [finally] block raises. *)
Lemma post_build_accepted env req url parsed w :
  accepted env req url parsed →
  let name := repo_name_of env parsed in
  let dir := build_dir_of name in
  let run := build_image_try env url name dir w in
  let fin := build_image_finally env dir (snd run) in
  post_build env req w =
  (match fst fin with
   | Ok _ => HttpResponse (status (answer (fst run))) (Some (body (answer (fst run))))
   | Raise _ => HttpResponse 500 (Some (error_body "Internal server error"))
   end,
   snd fin).
Proof.
  intros H. cbv zeta. unfold post_build.
  rewrite (build_image_accepted _ _ _ _ _ H). unfold try_except.
  rewrite build_image_guarded_run.
  by destruct (fst (build_image_finally env _ _)).
Qed.


(** The trace of an accepted request is that of the guarded block. *)
Lemma post_build_accepted_within env P req url parsed w :
  accepted env req url parsed →
  runs_within P (build_image_guarded env url (repo_name_of env parsed)
                                     (build_dir_of (repo_name_of env parsed))) →
  extends P w (snd (post_build env req w)).
Proof.
  intros H Hg. unfold post_build. rewrite (build_image_accepted _ _ _ _ _ H).
  destruct (try_except _ _ w) as [r w'] eqn:E. cbn.
  revert E. apply runs_within_try_except; [done |].
  intros _. apply runs_within_ret.
Qed.

(** ** Claims about request validation *)





(** C10, as stated, fails: for the body [{"repo_url": 5}] the handler does
    not return the JSON body [{"error": "Internal server error"}].  The
    [strip()] call is made before the outer [try] is entered, so the
    [AttributeError] leaves the view function. *)
Lemma non_string_url_not_generic_json :
  let env := Scenario.healthy Scenario.bare in
  let req := Request true (Some (JObj [("repo_url", JInt 5)])) in
  build_image env req Scenario.empty_world =
    (Raise (Exn AttributeError "'int' object has no attribute 'strip'"),
     Scenario.empty_world) ∧
  http_json (fst (post_build env req Scenario.empty_world)) ≠
    Some (error_body "Internal server error").
Proof. split; [reflexivity | discriminate]. Qed.

(** C10, amended: when the JSON body is an object whose [repo_url] is
    present but is not a string, the [strip()] call raises [AttributeError]
    outside every [try] of the handler; the exception leaves the view
    function, the framework answers with status 500 and its own error page
    (no JSON body), and the world is unchanged: fetch and build are never
    invoked. *)
Theorem non_string_url_escapes (env : Env) (req : request) (w : world)
    (d : pydict) (v : json) :
  is_json req = true →
  json_body req = Some (JObj d) →
  dict_get "repo_url" d = Some v →
  (∀ s, v ≠ JStr s) →
  build_image env req w = (Raise (no_attribute v "strip"), w) ∧
  post_build env req w = (HttpResponse 500 None, w).
Proof.
  intros Hj Hb Hd Hv.
  assert (E : build_image env req w = (Raise (no_attribute v "strip"), w)).
  { unfold build_image. rewrite Hj. cbn. unfold get_json. rewrite Hb.
    rewrite run_bind. cbn. rewrite Hd. cbn. rewrite run_bind. cbn.
    destruct v; try reflexivity. by destruct (Hv s). }
  split; [exact E |]. unfold post_build. by rewrite E.
Qed.

Lemma non_string_url_escapes_witness :
  let env := Scenario.healthy Scenario.bare in
  let req := Request true (Some (JObj [("repo_url", JNull)])) in
  build_image env req Scenario.empty_world =
    (Raise (no_attribute JNull "strip"), Scenario.empty_world) ∧
  post_build env req Scenario.empty_world = (HttpResponse 500 None, Scenario.empty_world).
Proof.
  apply (non_string_url_escapes (Scenario.healthy Scenario.bare) _ _
           [("repo_url", JNull)] JNull); try reflexivity.
  intros s. discriminate.
Defined.

(** ** Facts about Python strings *)

Section StringFacts.

Lemma prefix_cons a n b h :
  String.prefix (String a n) (String b h) =
  if decide (a = b) then String.prefix n h else false.
Proof. cbn. destruct (ascii_dec a b), (decide (a = b)); congruence. Qed.

Lemma prefix_lower n h :
  String.prefix n h = true →
  String.prefix (PyStr.lower n) (PyStr.lower h) = true.
Proof.
  revert n. induction h as [| b h IH]; intros [| a n]; try done.
  cbn [PyStr.lower]. rewrite !prefix_cons.
  destruct (decide (a = b)) as [-> |]; [| done].
  intros H. rewrite decide_True by done. by apply IH.
Qed.

Lemma contains_lower n h :
  PyStr.contains n h = true →
  PyStr.contains (PyStr.lower n) (PyStr.lower h) = true.
Proof.
  induction h as [| b h IH]; cbn [PyStr.contains PyStr.lower].
  - rewrite !orb_false_r. apply (prefix_lower n EmptyString).
  - intros [H | H]%orb_true_iff; apply orb_true_iff.
    + left. apply (prefix_lower n (String b h) H).
    + right. by apply IH.
Qed.

Lemma append_cons a s t : String a s +:+ t = String a (s +:+ t).
Proof. reflexivity. Qed.

Lemma append_nil_l t : EmptyString +:+ t = t.
Proof. reflexivity. Qed.

Lemma prefix_nil s : String.prefix EmptyString s = true.
Proof. by destruct s. Qed.

Lemma all_space_app a b : all_space (a +:+ b) = all_space a && all_space b.
Proof.
  induction a as [| x a IH]; [done |].
  rewrite append_cons. cbn [all_space]. by rewrite IH, andb_assoc.
Qed.

(** The members of [whitespace], one by one. *)
Ltac whitespace_cases H :=
  unfold PyStr.whitespace in H; cbn [In] in H;
  repeat (destruct H as [H | H]; [symmetry in H |]); [.. | destruct H].

Lemma is_space_In c : PyStr.is_space c = true ↔ In c PyStr.whitespace.
Proof.
  unfold PyStr.is_space. rewrite List.existsb_exists. split.
  - intros (e & Hin & He). apply String.eqb_eq in He. by subst.
  - intros H. exists c. split; [done |]. apply String.eqb_refl.
Qed.

(** Every byte of a white space character is a [space_byte]. *)
Lemma is_space_all_space c : PyStr.is_space c = true → all_space c = true.
Proof.
  intros H. apply is_space_In in H. whitespace_cases H; subst c; by vm_compute.
Qed.

Lemma whitespace_nonempty c : In c PyStr.whitespace → c ≠ EmptyString.
Proof. intros H. whitespace_cases H; by subst c. Qed.


(** [rstrip] removes a run of white space bytes from the end. *)
Lemma rstrip_split s :
  ∃ t, s = PyStr.rstrip s +:+ t ∧ all_space t = true.
Proof.
  induction s as [| a s (t & Hs & Ht)]; [by exists EmptyString |].
  cbn [PyStr.rstrip]. cbv zeta.
  destruct (PyStr.is_space (String a (PyStr.rstrip s))) eqn:Ha.
  - exists (String a (PyStr.rstrip s) +:+ t). split.
    + rewrite append_nil_l, append_cons. by f_equal.
    + rewrite all_space_app, Ht, andb_true_r. by apply is_space_all_space.
  - exists t. split; [| done]. rewrite append_cons. by f_equal.
Qed.









Lemma prefix_split c s : String.prefix c s = true → ∃ r, s = c +:+ r.
Proof.
  revert s. induction c as [| x c IH]; intros s; [by exists s |].
  destruct s as [| a s]; [done |]. rewrite prefix_cons.
  destruct (decide (x = a)) as [-> |]; [| done].
  intros [r ->]%IH. by exists r.
Qed.

Lemma prefix_app c r : String.prefix c (c +:+ r) = true.
Proof.
  induction c as [| x c IH]; [apply prefix_nil |].
  rewrite append_cons, prefix_cons. by rewrite decide_True.
Qed.

Lemma append_assoc (a b c : string) : (a +:+ b) +:+ c = a +:+ (b +:+ c).
Proof. induction a as [| x a IH]; [done |]. rewrite !append_cons. by f_equal. Qed.

(** A text none of whose first one, two or three bytes make up a white
    space character does not start with one. *)
Ltac not_prefixed Hin Hp :=
  exfalso; apply prefix_split in Hp as [? Hp];
  whitespace_cases Hin; subst; vm_compute in Hp; simplify_eq;
  match goal with
  | H : PyStr.is_space _ = false |- _ => by vm_compute in H
  end.

(** What [lstrip] returns does not start with a white space character. *)
Lemma lstrip_not_prefixed s c :
  In c PyStr.whitespace → String.prefix c (PyStr.lstrip s) = false.
Proof.
  intros Hin. remember (String.length s) as n eqn:Hn. revert s Hn.
  induction n as [n IH] using lt_wf_ind. intros s Hn.
  destruct s as [| a s1].
  { cbn [PyStr.lstrip]. apply whitespace_nonempty in Hin. by destruct c. }
  cbn [PyStr.lstrip].
  destruct (PyStr.is_space (String a EmptyString)) eqn:H1.
  { apply (IH (String.length s1)); [subst n; cbn; lia | done]. }
  destruct s1 as [| b s2].
  { destruct (String.prefix c _) eqn:Hp; [| done]. not_prefixed Hin Hp. }
  destruct (PyStr.is_space (String a (String b EmptyString))) eqn:H2.
  { apply (IH (String.length s2)); [subst n; cbn; lia | done]. }
  destruct s2 as [| c' s3].
  { destruct (String.prefix c _) eqn:Hp; [| done]. not_prefixed Hin Hp. }
  destruct (PyStr.is_space (String a (String b (String c' EmptyString)))) eqn:H3.
  { apply (IH (String.length s3)); [subst n; cbn; lia | done]. }
  destruct (String.prefix c _) eqn:Hp; [| done]. not_prefixed Hin Hp.
Qed.

(** What [rstrip] returns does not end with a white space character. *)
Lemma rstrip_not_suffixed s c :
  In c PyStr.whitespace → ends_with c (PyStr.rstrip s) = false.
Proof.
  intros Hin. induction s as [| a s IH].
  - cbn. apply whitespace_nonempty in Hin. by destruct c.
  - cbn [PyStr.rstrip]. cbv zeta.
    destruct (PyStr.is_space (String a (PyStr.rstrip s))) eqn:Ha.
    + cbn. apply whitespace_nonempty in Hin. by destruct c.
    + cbn [ends_with]. rewrite IH, orb_false_r.
      destruct (String.eqb_spec c (String a (PyStr.rstrip s))) as [-> |]; [| done].
      apply is_space_In in Hin. congruence.
Qed.

(** What [strip] returns neither starts nor ends with a white space
    character. *)
Lemma strip_trimmed s :
  space_prefixed (PyStr.strip s) = false ∧ space_suffixed (PyStr.strip s) = false.
Proof.
  unfold space_prefixed, space_suffixed, PyStr.strip. split.
  - apply not_true_iff_false. intros (c & Hin & Hp)%List.existsb_exists.
    apply prefix_split in Hp as [r Hr].
    destruct (rstrip_split (PyStr.lstrip s)) as (t & Hs & _).
    pose proof (lstrip_not_prefixed s c Hin) as Hl.
    rewrite Hs, Hr, append_assoc, prefix_app in Hl. discriminate.
  - apply not_true_iff_false. intros (c & Hin & Hp)%List.existsb_exists.
    by rewrite rstrip_not_suffixed in Hp.
Qed.

End StringFacts.

(** ** The workspace manager *)


(** One attempt.  It fails when the existence check raises or when the
    creation does; when it succeeds the directory exists. *)
Lemma clean_attempt_spec env dir w r w' :
  clean_attempt env dir w = (r, w') →
  ∃ evs,
    trace w' = trace w ++ evs ∧
    match r with
    | Ok _ =>
        successful_attempt dir evs ∧
        is_Some (fs w' !! dir) ∧
        (removal_effective env dir w → fs w' !! dir = Some ∅)
    | Raise _ =>
        failed_attempt dir (evs ++ [EvSleep 1]) ∧
        (removal_effective env dir w → fs w' !! dir = None)
    end.
Proof.
  unfold clean_attempt. rewrite run_bind. unfold dir_exists.
  destruct (fs w !! dir) as [t |] eqn:Ht.
  - rewrite run_bind. unfold rmtree. cbn.
    destruct (rmtree_outcome env (trace w ++ [EvStat dir]) dir) as [| keep] eqn:Hrm;
      unfold mkdir; cbn;
      destruct (mkdir_error env _ dir) as [e |]; cbn.
    + intros [= <- <-]. exists [EvStat dir; EvRmtree dir; EvMkdir dir]. cbn.
      split; [by rewrite <- !app_assoc |]. split; [by right; right |].
      intros _. apply lookup_delete_eq.
    + rewrite lookup_delete_eq. intros [= <- <-].
      exists [EvStat dir; EvRmtree dir; EvMkdir dir]. cbn.
      split; [by rewrite <- !app_assoc |]. split; [by right |].
      rewrite lookup_insert_eq. eauto.
    + intros [= <- <-]. exists [EvStat dir; EvRmtree dir; EvMkdir dir]. cbn.
      split; [by rewrite <- !app_assoc |]. split; [by right; right |].
      unfold removal_effective. intros [? | H]; congruence.
    + rewrite lookup_alter_eq, Ht. cbn. intros [= <- <-].
      exists [EvStat dir; EvRmtree dir; EvMkdir dir]. cbn.
      split; [by rewrite <- !app_assoc |]. split; [by right |].
      rewrite lookup_alter_eq, Ht. cbn.
      split; [eauto |]. unfold removal_effective. intros [? | H]; congruence.
  - assert (Hmk : ∀ w0 : world, fs w0 = fs w → trace w0 = trace w ++ [EvStat dir] →
                  ∀ r w', ((mret tt : M unit) ≫= λ _, mkdir env dir) w0 = (r, w') →
                  ∃ evs, trace w' = trace w ++ evs ∧
                    match r with
                    | Ok _ => successful_attempt dir evs ∧ is_Some (fs w' !! dir) ∧
                              (removal_effective env dir w → fs w' !! dir = Some ∅)
                    | Raise _ => failed_attempt dir (evs ++ [EvSleep 1]) ∧
                                 (removal_effective env dir w → fs w' !! dir = None)
                    end).
    { intros w0 Hfs Htr r0 w0'. rewrite run_bind. cbn. unfold mkdir.
      destruct (mkdir_error env (trace w0) dir) as [e |]; [| rewrite Hfs, Ht];
        intros [= <- <-]; exists [EvStat dir; EvMkdir dir]; cbn; rewrite Htr, ?Hfs.
      - split; [by rewrite <- !app_assoc |]. split; [by right; left | done].
      - split; [by rewrite <- !app_assoc |]. split; [by left |].
        rewrite lookup_insert_eq. eauto. }
    destruct (stat_error env (trace w) dir) as [e |],
             (mkdir_error env (trace w) dir) as [e' |];
      cbv beta iota; try (apply Hmk; done).
    intros [= <- <-]. exists [EvStat dir]. cbn. split; [done |]. split; [by left | done].
Qed.

(** The loop with [n] iterations left: some failed attempts, each followed
    by a sleep of one second, then either a successful attempt or, after [n]
    failures, the fatal error. *)
Lemma clean_loop_spec env n dir w r w' :
  clean_loop env n dir w = (r, w') →
  ∃ fails last,
    trace w' = trace w ++ mjoin fails ++ last ∧
    Forall (failed_attempt dir) fails ∧
    match r with
    | Ok _ =>
        length fails < n ∧ successful_attempt dir last ∧
        is_Some (fs w' !! dir) ∧
        (removal_effective env dir w → fs w' !! dir = Some ∅)
    | Raise e =>
        length fails = n ∧ last = [] ∧
        e = Exn RuntimeError (clean_failed_message dir)
    end.
Proof.
  revert w. induction n as [| n IH]; intros w; cbn [clean_loop].
  - intros [= <- <-]. exists [], []. cbn. rewrite app_nil_r. by repeat split.
  - unfold try_except.
    destruct (clean_attempt env dir w) as [[[] | e] w1] eqn:E;
      apply clean_attempt_spec in E as (evs & Htr & Hspec).
    + intros [= <- <-]. exists [], evs. cbn.
      split; [done |]. split; [constructor |].
      destruct Hspec as (? & ? & ?). repeat split; try done. lia.
    + destruct Hspec as [Hfail Hfs]. rewrite run_bind. cbn.
      intros H. apply IH in H as (fails & last & Htr' & Hall & Hr).
      exists ((evs ++ [EvSleep 1]) :: fails), last.
      split; [cbn in Htr'; rewrite Htr', Htr; cbn; by rewrite <- !app_assoc |].
      split; [by constructor |].
      destruct r as [[] | e'].
      * destruct Hr as (Hk & Hlast & Hsome & Hempty). cbn.
        split; [lia |]. split; [done |]. split; [done |].
        intros Heff. apply Hempty. left. cbn. by apply Hfs.
      * destruct Hr as (Hk & -> & ->). cbn. by rewrite Hk.
Qed.

Lemma clean_build_dir_ok_present env dir w w1 :
  clean_build_dir env dir w = (Ok tt, w1) → is_Some (fs w1 !! dir).
Proof.
  intros H. by apply clean_loop_spec in H as (? & ? & _ & _ & _ & _ & ? & _).
Qed.






(** Calling [clean_build_dir] twice in succession: when both calls return
    and removal is effective, the directory is empty after each. *)
Lemma clean_build_dir_twice env dir w w1 w2 :
  (∀ h, rmtree_outcome env h dir = Removed) →
  clean_build_dir env dir w = (Ok tt, w1) →
  clean_build_dir env dir w1 = (Ok tt, w2) →
  fs w1 !! dir = Some ∅ ∧ fs w2 !! dir = Some ∅.
Proof.
  intros Hrm H1 H2.
  apply clean_loop_spec in H1 as (? & ? & _ & _ & _ & _ & _ & E1).
  apply clean_loop_spec in H2 as (? & ? & _ & _ & _ & _ & _ & E2).
  split; [apply E1 | apply E2]; by right.
Qed.

(** ** The fetcher *)





(** ** Events of the later steps *)

Section MoreTraces.

Context (env : Env) (P : event → Prop).


Lemma build_image_except_within e : runs_within P (build_image_except e).
Proof. apply runs_within_ret. Qed.

(** The handler around its inner [try] body. *)
Lemma build_image_within req :
  (∀ url name dir, runs_within P (build_image_try env url name dir)) →
  (∀ p, P (EvStat p)) → (∀ p, P (EvRmtree p)) →
  runs_within P (build_image env req).
Proof.
  intros Htry Hstat Hrm. unfold build_image.
  destruct (negb (is_json req)); [apply runs_within_ret |].
  apply runs_within_bind.
  { unfold get_json. destruct (json_body req);
      [apply runs_within_ret | apply runs_within_raise]. }
  intros data. apply runs_within_bind; [apply runs_within_lift |].
  intros raw. apply runs_within_bind; [apply runs_within_lift |].
  intros url. destruct (negb (PyStr.truthy url)); [apply runs_within_ret |].
  apply runs_within_try_except; [| intros _; apply runs_within_ret].
  unfold build_image_validated.
  apply runs_within_bind; [apply runs_within_lift |].
  intros parsed. destruct (negb _); [apply runs_within_ret |].
  unfold build_image_guarded.
  apply runs_within_try_finally.
  - apply runs_within_try_except; [apply Htry | apply build_image_except_within].
  - by apply build_image_finally_within.
Qed.

End MoreTraces.

Lemma post_build_within env P req w :
  runs_within P (build_image env req) → extends P w (snd (post_build env req w)).
Proof.
  intros H. unfold post_build.
  destruct (build_image env req w) as [r w'] eqn:E. cbn. eapply H, E.
Qed.

(** ** The recipe steps *)

Lemma clone_repository_ok_inv env url dir w w' :
  clone_repository env url dir w = (Ok tt, w') →
  ∃ t, git_clone env (trace w) url dir = Ok t ∧
       fs w' = <[dir := t]> (fs w) ∧
       trace w' = trace w ++ [EvClone url dir].
Proof.
  unfold clone_repository, run_git_clone.
  destruct (git_clone env (trace w) url dir) as [t | [cls msg]] eqn:E.
  - intros [= <-]. by exists t.
  - by destruct cls.
Qed.

Lemma read_file_insert (f : filesystem) dir (t : tree) name :
  read_file (<[dir := t]> f) dir name = t !! name.
Proof. unfold read_file. by rewrite lookup_insert_eq. Qed.

Section Recipe.

Context (env : Env) (P : event → Prop).
Hypothesis P_stat : ∀ p, P (EvStat p).

(** With a Dockerfile in place, the GitHub Pages step only looks. *)
Lemma github_pages_override_present url dir w c :
  read_file (fs w) dir "Dockerfile" = Some c →
  ∃ w1, github_pages_override env url dir w = (Ok tt, w1) ∧
        fs w1 = fs w ∧ extends P w w1.
Proof.
  intros Hc. unfold github_pages_override.
  destruct (PyStr.contains _ _).
  - rewrite run_bind. cbn. rewrite Hc, bool_decide_eq_true_2 by eauto.
    eexists. split; [reflexivity |]. split; [done |]. by apply extends_log.
  - eexists. split; [reflexivity |]. split; [done |]. apply extends_refl.
Qed.

(** With a Dockerfile in place, so does the generic generation. *)
Lemma ensure_dockerfile_present dir w c :
  read_file (fs w) dir "Dockerfile" = Some c →
  ∃ w1, ensure_dockerfile env dir w = (Ok tt, w1) ∧
        fs w1 = fs w ∧ extends P w w1.
Proof.
  intros Hc. unfold ensure_dockerfile. rewrite run_bind. cbn.
  rewrite Hc, bool_decide_eq_true_2 by eauto.
  eexists. split; [reflexivity |]. split; [done |]. by apply extends_log.
Qed.

(** With the Dockerfile [c] in place, the image builder writes nothing and
    hands [c] to the engine. *)
Lemma build_docker_image_present dir name w c r w' :
  (∀ d t, P (EvEngineBuild d t (Some c))) →
  read_file (fs w) dir "Dockerfile" = Some c →
  build_docker_image env dir name w = (r, w') →
  fs w' = fs w ∧ extends P w w'.
Proof.
  intros P_build Hc. unfold build_docker_image.
  destruct (negb (client env)).
  { intros [= <- <-]. split; [done | apply extends_refl]. }
  unfold try_except, build_docker_image_try. rewrite run_bind.
  destruct (ensure_dockerfile_present dir w c Hc) as (w1 & -> & Hfs & Hext).
  rewrite run_bind. unfold client_images_build at 1.
  assert (Hstep : fs (log_event (EvEngineBuild dir (image_tag name)
                                   (read_file (fs w1) dir "Dockerfile")) w1) = fs w
                  ∧ extends P w (log_event (EvEngineBuild dir (image_tag name)
                                   (read_file (fs w1) dir "Dockerfile")) w1)).
  { split; [done |]. eapply extends_trans; [exact Hext |].
    apply extends_log. rewrite Hfs, Hc. apply P_build. }
  destruct (images_build env (trace w1) dir (image_tag name) (fs w1 !! dir))
    as [[img build_logs] | e].
  - rewrite run_bind. unfold lift_result at 1.
    destruct (filter_logs build_logs) as [logs | e].
    + rewrite run_bind. unfold lift_result at 1.
      destruct (first_tag img) as [tag | e].
      * by intros [= <- <-].
      * unfold build_docker_image_except.
        destruct (exn_cls e); by intros [= <- <-].
    + unfold build_docker_image_except.
      destruct (exn_cls e); by intros [= <- <-].
  - unfold build_docker_image_except.
    destruct (exn_cls e); by intros [= <- <-].
Qed.

End Recipe.

(** The steps after the image builder returned add no event. *)
Lemma build_image_try_tail {P} (img : image) (logs : list string) w0 w r w' :
  extends P w0 w →
  (tag ← lift_result (first_tag img);
   mret (Response 200 (success_body tag logs))) w = (r, w') →
  extends P w0 w'.
Proof.
  intros H. rewrite run_bind. unfold lift_result.
  destruct (first_tag img); by intros [= <- <-].
Qed.

Lemma build_image_try_recipe_kept env c url name dir :
  (∀ h u d t, git_clone env h u d = Ok t → t !! "Dockerfile" = Some c) →
  runs_within (recipe_kept c) (build_image_try env url name dir).
Proof.
  intros Hgit w r w'. unfold build_image_try. rewrite run_bind.
  destruct (clean_build_dir env dir w) as [[[] | e] w1] eqn:E1;
    (assert (X1 : extends (recipe_kept c) w w1)
      by (eapply (clean_loop_within env _ 3 dir); [done .. | exact E1]));
    [| by intros [= <- <-]].
  rewrite run_bind.
  destruct (clone_repository env url dir w1) as [[[] | e] w2] eqn:E2;
    (assert (X2 : extends (recipe_kept c) w w2)
      by (eapply extends_trans;
          [exact X1 | eapply (clone_repository_within env _ url dir); [done | exact E2]]));
    [| by intros [= <- <-]].
  apply clone_repository_ok_inv in E2 as (t & Hg & Hfs & _).
  assert (Hc : read_file (fs w2) dir "Dockerfile" = Some c).
  { rewrite Hfs, read_file_insert. eapply Hgit, Hg. }
  rewrite run_bind.
  destruct (github_pages_override_present env (recipe_kept c) (λ _, I) url dir w2 c Hc)
    as (w3 & -> & Hfs3 & X3).
  rewrite run_bind.
  destruct (build_docker_image env dir name w3) as [[[img logs] | e] w4] eqn:E4;
    apply (build_docker_image_present env (recipe_kept c) (λ _, I) _ _ _ c) in E4
      as [_ X4]; try (intros; reflexivity); try congruence.
  - apply build_image_try_tail. eauto using extends_trans.
  - intros [= <- <-]. eauto using extends_trans.
Qed.

(** C4: when the cloned repository has a Dockerfile at its root, with
    content [c], neither the GitHub Pages step nor the generic generation
    touches it: both return normally and leave the file system as it was,
    whatever the URL and the other files; and during the whole /build
    request nothing is written and the engine, if it is reached, builds from
    [c]. *)
Theorem provided_dockerfile_kept (env : Env) (c : string) :
  (∀ url dir w,
     read_file (fs w) dir "Dockerfile" = Some c →
     ∃ w1 w2,
       github_pages_override env url dir w = (Ok tt, w1) ∧
       ensure_dockerfile env dir w1 = (Ok tt, w2) ∧
       fs w2 = fs w ∧
       read_file (fs w2) dir "Dockerfile" = Some c) ∧
  ((∀ h u d t, git_clone env h u d = Ok t → t !! "Dockerfile" = Some c) →
   ∀ req w, extends (recipe_kept c) w (snd (post_build env req w))).
Proof.
  split.
  - intros url dir w Hc.
    destruct (github_pages_override_present env (λ _, True) (λ _, I) url dir w c Hc)
      as (w1 & E1 & Hfs1 & _).
    assert (Hc1 : read_file (fs w1) dir "Dockerfile" = Some c) by by rewrite Hfs1.
    destruct (ensure_dockerfile_present env (λ _, True) (λ _, I) dir w1 c Hc1)
      as (w2 & E2 & Hfs2 & _).
    exists w1, w2. repeat split; try done; congruence.
  - intros Hgit req w. apply post_build_within, build_image_within; try done.
    intros url name dir. by apply build_image_try_recipe_kept.
Qed.

Lemma provided_dockerfile_kept_witness :
  let env := Scenario.healthy Scenario.own_recipe in
  let out := post_build env (Scenario.build_request Scenario.pages_url)
                        Scenario.empty_world in
  http_status (fst out) = 200 ∧
  EvEngineBuild "/tmp/builds/my-site.github" "builder/my-site-github:latest"
                (Some "FROM scratch") ∈ trace (snd out) ∧
  extends (recipe_kept "FROM scratch") Scenario.empty_world (snd out).
Proof.
  cbv zeta. split; [vm_compute; reflexivity |]. split.
  - vm_compute. set_solver.
  - apply (provided_dockerfile_kept (Scenario.healthy Scenario.own_recipe) "FROM scratch").
    intros h u d t [= <-]. vm_compute. reflexivity.
Defined.

(** Without a Dockerfile, the GitHub Pages step writes the static template. *)
Lemma github_pages_override_absent env url dir w (t : tree) r w1 :
  PyStr.contains "github.io" url = true →
  fs w !! dir = Some t →
  t !! "Dockerfile" = None →
  github_pages_override env url dir w = (r, w1) →
  extends (recipe_is (template Static)) w w1 ∧
  (write_error env (trace w ++ [EvStat (joinpath dir "Dockerfile")])
               (joinpath dir "Dockerfile") = None → r = Ok tt) ∧
  (r = Ok tt → read_file (fs w1) dir "Dockerfile" = Some (template Static)).
Proof.
  intros Hurl Hdir Hnone. unfold github_pages_override.
  rewrite (contains_lower "github.io" url Hurl : PyStr.contains "github.io" _ = true).
  rewrite run_bind. cbn.
  assert (Hread : read_file (fs w) dir "Dockerfile" = None).
  { unfold read_file. by rewrite Hdir. }
  rewrite Hread, bool_decide_eq_false_2 by (by intros [? ?]).
  unfold write_file. cbn.
  destruct (write_error env _ _) as [e |]; [| rewrite Hdir]; intros [= <- <-].
  - split; [| done].
    exists [EvStat (joinpath dir "Dockerfile");
            EvWrite (joinpath dir "Dockerfile") (template Static)].
    cbn. split; [by rewrite <- app_assoc | by repeat constructor].
  - split; [| split; [done |]].
    + exists [EvStat (joinpath dir "Dockerfile");
              EvWrite (joinpath dir "Dockerfile") (template Static)].
      cbn. split; [by rewrite <- app_assoc | by repeat constructor].
    + intros _. cbn. rewrite read_file_insert. apply lookup_insert_eq.
Qed.

Lemma build_image_try_pages env url name dir :
  PyStr.contains "github.io" url = true →
  (∀ h u d t, git_clone env h u d = Ok t → t !! "Dockerfile" = None) →
  runs_within (recipe_is (template Static)) (build_image_try env url name dir).
Proof.
  intros Hurl Hgit w r w'. unfold build_image_try. rewrite run_bind.
  destruct (clean_build_dir env dir w) as [[[] | e] w1] eqn:E1;
    (assert (X1 : extends (recipe_is (template Static)) w w1)
      by (eapply (clean_loop_within env _ 3 dir); [done .. | exact E1]));
    [| by intros [= <- <-]].
  rewrite run_bind.
  destruct (clone_repository env url dir w1) as [[[] | e] w2] eqn:E2;
    (assert (X2 : extends (recipe_is (template Static)) w w2)
      by (eapply extends_trans;
          [exact X1 | eapply (clone_repository_within env _ url dir); [done | exact E2]]));
    [| by intros [= <- <-]].
  apply clone_repository_ok_inv in E2 as (t & Hg & Hfs & _).
  assert (Hdir : fs w2 !! dir = Some t) by (by rewrite Hfs, lookup_insert_eq).
  rewrite run_bind.
  destruct (github_pages_override env url dir w2) as [[[] | e] w3] eqn:E3;
    apply (github_pages_override_absent _ _ _ _ t) in E3 as (X3 & _ & Hc);
    eauto; [| intros [= <- <-]; eauto using extends_trans].
  specialize (Hc eq_refl). rewrite run_bind.
  destruct (build_docker_image env dir name w3) as [[[img logs] | e] w4] eqn:E4;
    apply (build_docker_image_present env (recipe_is (template Static)) (λ _, I)
             _ _ _ (template Static)) in E4
      as [_ X4]; try (intros; reflexivity); try congruence.
  - apply build_image_try_tail. eauto using extends_trans.
  - intros [= <- <-]. eauto using extends_trans.
Qed.

(** C7: for a /build request whose repository URL contains [github.io] and
    whose clone delivers no Dockerfile, the GitHub Pages step writes exactly
    the static template into the workspace (and returns normally unless the
    write itself fails), and during the whole request nothing else is
    written and the engine, if it is reached, builds from the static
    template: whatever the other files of the repository are, so also when
    generic detection would have chosen the node or the default template. *)
Theorem pages_site_gets_static_template (env : Env) (req : request) (url : string)
    (parsed : parse_result) (w : world) :
  accepted env req url parsed →
  PyStr.contains "github.io" url = true →
  (∀ h u d t, git_clone env h u d = Ok t → t !! "Dockerfile" = None) →
  extends (recipe_is DOCKERFILE_TEMPLATES.static) w (snd (post_build env req w)) ∧
  (∀ dir w0 (t : tree) r w1,
     fs w0 !! dir = Some t →
     t !! "Dockerfile" = None →
     github_pages_override env url dir w0 = (r, w1) →
     (write_error env (trace w0 ++ [EvStat (joinpath dir "Dockerfile")])
                  (joinpath dir "Dockerfile") = None → r = Ok tt) ∧
     (r = Ok tt →
      read_file (fs w1) dir "Dockerfile" = Some DOCKERFILE_TEMPLATES.static)).
Proof.
  intros Hacc Hurl Hgit. split.
  - rewrite (post_build_accepted _ _ _ _ _ Hacc). cbv zeta.
    set (name := repo_name_of env parsed). set (dir := build_dir_of name).
    destruct (build_image_try env url name dir w) as [r w1] eqn:E1. cbn [fst snd].
    destruct (build_image_finally env dir w1) as [rf wf] eqn:Ef. cbn [fst snd].
    eapply extends_trans.
    + eapply (build_image_try_pages env url name dir Hurl Hgit), E1.
    + eapply (build_image_finally_within env _ dir), Ef; done.
  - intros dir w0 t r w1 Hdir Hnone E.
    by apply (github_pages_override_absent _ _ _ _ t) in E as (_ & ? & ?).
Qed.

Lemma pages_site_gets_static_template_witness :
  let env := Scenario.healthy Scenario.bare in
  let out := post_build env (Scenario.build_request Scenario.pages_url)
                        Scenario.empty_world in
  http_status (fst out) = 200 ∧
  EvEngineBuild "/tmp/builds/my-site.github" "builder/my-site-github:latest"
                (Some DOCKERFILE_TEMPLATES.static) ∈ trace (snd out) ∧
  extends (recipe_is DOCKERFILE_TEMPLATES.static) Scenario.empty_world (snd out).
Proof.
  cbv zeta. split; [vm_compute; reflexivity |]. split.
  - vm_compute. set_solver.
  - apply (pages_site_gets_static_template (Scenario.healthy Scenario.bare)
             (Scenario.build_request Scenario.pages_url) Scenario.pages_url
             (ParseResult "https" "github.com" "/user/my-site.github.io")).
    + repeat split; try reflexivity. by eexists _, _.
    + reflexivity.
    + intros h u d t [= <-]. vm_compute. reflexivity.
Defined.

(** ** Teardown *)

Section Presence.

Context (env : Env) (dir : string).

Lemma keeps_dir_ret {A} (a : A) : keeps_dir dir (mret a).
Proof. by intros w r w' [= <- <-]. Qed.

Lemma keeps_dir_raise {A} e : keeps_dir dir (raise (A := A) e).
Proof. by intros w r w' [= <- <-]. Qed.

Lemma keeps_dir_lift {A} (x : result A) : keeps_dir dir (lift_result x).
Proof. by intros w r w' [= <- <-]. Qed.

Lemma keeps_dir_bind {A B} (m : M A) (f : A → M B) :
  keeps_dir dir m → (∀ a, keeps_dir dir (f a)) → keeps_dir dir (m ≫= f).
Proof.
  intros Hm Hf w r w'. rewrite run_bind.
  destruct (m w) as [[a | e] w1] eqn:E; intros H Hw.
  - eapply Hf; [exact H |]. by eapply Hm.
  - injection H as <- <-. by eapply Hm.
Qed.

Lemma keeps_dir_try_except {A} (m : M A) (h : exn → M A) :
  keeps_dir dir m → (∀ e, keeps_dir dir (h e)) → keeps_dir dir (try_except m h).
Proof.
  intros Hm Hh w r w'. unfold try_except.
  destruct (m w) as [[a | e] w1] eqn:E; intros H Hw.
  - injection H as <- <-. by eapply Hm.
  - eapply Hh; [exact H |]. by eapply Hm.
Qed.

Lemma keeps_dir_file_exists name : keeps_dir dir (file_exists dir name).
Proof. by intros w r w' [= <- <-]. Qed.

Lemma keeps_dir_write_file name content :
  keeps_dir dir (write_file env dir name content).
Proof.
  intros w r w'. unfold write_file.
  destruct (write_error env (trace w) _); [| destruct (fs w !! dir)];
    intros [= <- <-]; cbn; try done.
  intros _. rewrite lookup_insert_eq. eauto.
Qed.

(** A clone that fails leaves the directory it was given in place; one
    that succeeds fills it. *)
Lemma keeps_dir_clone url : keeps_dir dir (clone_repository env url dir).
Proof.
  intros w r w'. unfold clone_repository, run_git_clone.
  destruct (git_clone env (trace w) url dir) as [t | [cls msg]].
  - intros [= <- <-] _. cbn. rewrite lookup_insert_eq. eauto.
  - destruct cls; by intros [= <- <-].
Qed.

Lemma keeps_dir_override url : keeps_dir dir (github_pages_override env url dir).
Proof.
  unfold github_pages_override.
  destruct (PyStr.contains _ _); [| apply keeps_dir_ret].
  apply keeps_dir_bind; [apply keeps_dir_file_exists |].
  intros []; [apply keeps_dir_ret | apply keeps_dir_write_file].
Qed.

Lemma keeps_dir_ensure_dockerfile : keeps_dir dir (ensure_dockerfile env dir).
Proof.
  unfold ensure_dockerfile.
  apply keeps_dir_bind; [apply keeps_dir_file_exists |].
  intros []; [apply keeps_dir_ret |].
  apply keeps_dir_bind; [| intros ty; apply keeps_dir_write_file].
  unfold detect_project_type.
  apply keeps_dir_bind; [apply keeps_dir_file_exists |].
  intros []; [apply keeps_dir_ret |].
  apply keeps_dir_bind; [apply keeps_dir_file_exists |].
  intros []; apply keeps_dir_ret.
Qed.

Lemma keeps_dir_build_docker_image name :
  keeps_dir dir (build_docker_image env dir name).
Proof.
  unfold build_docker_image.
  destruct (negb (client env)); [apply keeps_dir_raise |].
  apply keeps_dir_try_except.
  - unfold build_docker_image_try.
    apply keeps_dir_bind; [apply keeps_dir_ensure_dockerfile |].
    intros _. apply keeps_dir_bind.
    { by intros w r w' [= <- <-]. }
    intros [img build_logs].
    apply keeps_dir_bind; [apply keeps_dir_lift |]. intros logs.
    apply keeps_dir_bind; [apply keeps_dir_lift |]. intros _.
    apply keeps_dir_ret.
  - intros e. unfold build_docker_image_except.
    destruct (exn_cls e); apply keeps_dir_raise.
Qed.

(** The steps after the prepare step. *)
Lemma keeps_dir_steps url name :
  keeps_dir dir
    (clone_repository env url dir;;
     github_pages_override env url dir;;
     '(img, logs) ← build_docker_image env dir name;
     tag ← lift_result (first_tag img);
     mret (Response 200 (success_body tag logs))).
Proof.
  apply keeps_dir_bind; [apply keeps_dir_clone |]. intros _.
  apply keeps_dir_bind; [apply keeps_dir_override |]. intros _.
  apply keeps_dir_bind; [apply keeps_dir_build_docker_image |].
  intros [img logs].
  apply keeps_dir_bind; [apply keeps_dir_lift |]. intros tag.
  apply keeps_dir_ret.
Qed.

(** Once the prepare step succeeded, the workspace directory is there when
    the inner [try] body ends, however it ends. *)
Lemma build_image_try_present url name w w1 :
  clean_build_dir env dir w = (Ok tt, w1) →
  is_Some (fs (snd (build_image_try env url name dir w)) !! dir).
Proof.
  intros H. unfold build_image_try. rewrite run_bind, H.
  match goal with |- is_Some (fs (snd ?t) !! _) => destruct t as [r w'] eqn:E end.
  cbn [snd]. eapply (keeps_dir_steps url name); [exact E |].
  by eapply clean_build_dir_ok_present.
Qed.

(** The existence check of the [finally] block raises only for a directory
    that is not there. *)
Lemma build_image_finally_raises w e :
  fst (build_image_finally env dir w) = Raise e →
  fs w !! dir = None ∧ stat_error env (trace w) dir = Some e.
Proof.
  unfold build_image_finally. rewrite run_bind. unfold dir_exists.
  destruct (fs w !! dir) as [t |].
  - unfold rmtree. cbn. by destruct (rmtree_outcome env _ dir).
  - destruct (stat_error env (trace w) dir) as [e' |],
             (mkdir_error env (trace w) dir); cbn; try done.
    by intros [= ->].
Qed.

End Presence.

(** C3, as stated, fails: the removal of the [finally] block ignores its
    errors, so when it fails the build still succeeds and the workspace
    directory is still on disk when the request completes. *)
Lemma workspace_survives_failed_teardown :
  let env := Scenario.with_rmtree (λ _ _, Survives (λ _, true))
                                  (Scenario.healthy Scenario.site) in
  let out := post_build env (Scenario.build_request Scenario.app_url)
                        Scenario.empty_world in
  http_status (fst out) = 200 ∧
  is_Some (fs (snd out) !! "/tmp/builds/app") ∧
  read_file (fs (snd out)) "/tmp/builds/app" "index.html" = Some "<h1>hello</h1>".
Proof.
  cbv zeta. split; [vm_compute; reflexivity |].
  assert (H : read_file (fs (snd (post_build
                (Scenario.with_rmtree (λ _ _, Survives (λ _, true))
                                      (Scenario.healthy Scenario.site))
                (Scenario.build_request Scenario.app_url) Scenario.empty_world)))
              "/tmp/builds/app" "index.html" = Some "<h1>hello</h1>")
    by (vm_compute; reflexivity).
  split; [| exact H].
  unfold read_file in H. destruct (fs _ !! "/tmp/builds/app"); [eauto | discriminate H].
Qed.

(** C3, amended: for every /build request that reaches the
    workspace-prepare step, the [finally] block runs exactly once, after the
    inner [try] body succeeded or failed: it checks the workspace directory
    once and, when the directory exists, attempts its removal exactly once,
    ignoring the errors of the removal.  When the block returns, the
    response is the one the pipeline produced, whatever the removal did;
    this is the case whenever the directory exists at that point, and so
    whenever the prepare step succeeded.  When the existence check of the
    block raises, which happens only for a directory that is not there, the
    outer handler answers status 500 with the generic message instead.  The
    workspace directory no longer exists when the request completes provided
    the removal is effective (or the directory was already absent). *)
Theorem teardown_best_effort (env : Env) (req : request) (url : string)
    (parsed : parse_result) (w : world) :
  accepted env req url parsed →
  let dir := build_dir_of (repo_name_of env parsed) in
  let run := build_image_try env url (repo_name_of env parsed) dir w in
  let fin := build_image_finally env dir (snd run) in
  let out := post_build env req w in
  snd out = snd fin ∧
  trace (snd out) =
    trace (snd run) ++ EvStat dir ::
      (if decide (is_Some (fs (snd run) !! dir)) then [EvRmtree dir] else []) ∧
  match fst fin with
  | Ok _ =>
      fst out = HttpResponse (status (answer (fst run))) (Some (body (answer (fst run))))
  | Raise e =>
      fst out = HttpResponse 500 (Some (error_body "Internal server error")) ∧
      fs (snd run) !! dir = None ∧
      stat_error env (trace (snd run)) dir = Some e
  end ∧
  (is_Some (fs (snd run) !! dir) → fst fin = Ok tt) ∧
  (∀ w1, clean_build_dir env dir w = (Ok tt, w1) → is_Some (fs (snd run) !! dir)) ∧
  (fs (snd run) !! dir = None ∨
   rmtree_outcome env (trace (snd run) ++ [EvStat dir]) dir = Removed →
   fs (snd out) !! dir = None).
Proof.
  intros Hacc dir run fin out. subst out.
  rewrite (post_build_accepted _ _ _ _ _ Hacc). cbv zeta. fold dir. fold run. fold fin.
  cbn [fst snd].
  destruct (build_image_finally_run env dir (snd run)) as (r & w' & E & Htr & Hr & Hfs).
  pose proof (build_image_finally_raises env dir (snd run)) as Hraise.
  fold fin in E, Hraise. rewrite E in *. cbn [fst snd] in *.
  split; [done |]. split; [done |]. split.
  { destruct r as [[] | e]; [done |]. destruct (Hraise e eq_refl). done. }
  split; [done |]. split; [| done].
  intros w1 H1. by eapply build_image_try_present.
Qed.

Lemma teardown_best_effort_witness :
  let env := Scenario.healthy Scenario.site in
  let out := post_build env (Scenario.build_request Scenario.app_url)
                        Scenario.empty_world in
  http_status (fst out) = 200 ∧ fs (snd out) !! "/tmp/builds/app" = None.
Proof.
  cbv zeta.
  destruct (teardown_best_effort (Scenario.healthy Scenario.site)
              (Scenario.build_request Scenario.app_url) Scenario.app_url
              (ParseResult "https" "github.com" "/user/app.git") Scenario.empty_world)
    as (_ & _ & Hresp & _ & _ & Hgone).
  { repeat split; try reflexivity. by eexists _, _. }
  split.
  - vm_compute. reflexivity.
  - apply Hgone. right. vm_compute. reflexivity.
Defined.

(** ** Which requests reach the pipeline *)

(** A request is either accepted, or refused without any work and without
    a success response. *)
Lemma accepted_or_refused env req :
  (∃ url parsed, accepted env req url parsed) ∨
  (∀ w, http_status (fst (post_build env req w)) ≠ 200 ∧
        snd (post_build env req w) = w).
Proof.
  unfold post_build, build_image.
  destruct (is_json req) eqn:Hj; [| by right].
  unfold get_json. destruct (json_body req) as [data |] eqn:Hb; [| by right].
  cbn [negb].
  destruct data as [| | | | | | d];
    try (right; intros w; rewrite run_bind; cbn; by split).
  destruct (dict_get "repo_url" d) as [v |] eqn:Hd;
    [| right; intros w; rewrite run_bind; cbn; rewrite Hd; cbn; by split].
  destruct v as [| | | | s | |];
    try (right; intros w; rewrite run_bind; cbn; rewrite Hd; cbn; by split).
  destruct (PyStr.truthy (PyStr.strip s)) eqn:Hu;
    [| right; intros w; rewrite run_bind; cbn; rewrite Hd; cbn;
       rewrite run_bind; cbn; rewrite run_bind; cbn; rewrite Hu; by split].
  destruct (urlparse env (PyStr.strip s)) as [parsed | e] eqn:Hp.
  - destruct (PyStr.truthy (scheme parsed) && PyStr.truthy (netloc parsed)) eqn:Hsn.
    + left. apply andb_true_iff in Hsn as [Hs Hn].
      exists (PyStr.strip s), parsed. repeat split; try done. by exists d, s.
    + right. intros w. rewrite run_bind. cbn. rewrite Hd. cbn.
      rewrite run_bind. cbn. rewrite run_bind. cbn. rewrite Hu. cbn.
      unfold try_except, build_image_validated. rewrite run_bind. cbn.
      rewrite Hp, Hsn. by split.
  - right. intros w. rewrite run_bind. cbn. rewrite Hd. cbn.
    rewrite run_bind. cbn. rewrite run_bind. cbn. rewrite Hu. cbn.
    unfold try_except, build_image_validated. rewrite run_bind. cbn.
    rewrite Hp. by split.
Qed.

(** ** Errors of the pipeline *)

(** C2, as stated, fails: when the [git] program is missing,
    [subprocess.run] raises an [OSError], which is none of the classified
    errors; the inner [except Exception] returns its text to the caller. *)
Lemma unexpected_error_text_returned :
  let text := "[Errno 2] No such file or directory: 'git'" in
  let env := Scenario.with_git (λ _ _ _, Raise (Exn OSError text))
                               (Scenario.healthy Scenario.bare) in
  let out := post_build env (Scenario.build_request Scenario.app_url)
                        Scenario.empty_world in
  fst out = HttpResponse 500 (Some (error_body text)) ∧
  http_json (fst out) ≠ Some (error_body "Internal server error").
Proof. cbv zeta. split; [vm_compute; reflexivity | vm_compute; discriminate]. Qed.

(** C2, amended: for a request with a non-blank string [repo_url], an
    exception raised while the URL is parsed is answered with status 500 and
    the generic message, and nothing else is done.  An exception raised by
    any step of the pipeline (prepare, clone, recipe, build), of whatever
    kind, is caught by the inner handler; the [finally] block then runs, and
    when it returns the answer is status 500 with the text of that
    exception.  This is the case whenever the workspace directory exists at
    that point, and so whenever the prepare step had succeeded.  When the
    existence check of the [finally] block raises, which happens only for a
    directory that is not there, the outer handler answers status 500 with
    the generic message. *)
Theorem pipeline_errors_reported (env : Env) (req : request) (d : pydict)
    (s : string) (w : world) :
  is_json req = true →
  json_body req = Some (JObj d) →
  dict_get "repo_url" d = Some (JStr s) →
  PyStr.truthy (PyStr.strip s) = true →
  match urlparse env (PyStr.strip s) with
  | Raise _ =>
      post_build env req w =
        (HttpResponse 500 (Some (error_body "Internal server error")), w)
  | Ok parsed =>
      PyStr.truthy (scheme parsed) = true →
      PyStr.truthy (netloc parsed) = true →
      let name := repo_name_of env parsed in
      let dir := build_dir_of name in
      ∀ e w1,
        build_image_try env (PyStr.strip s) name dir w = (Raise e, w1) →
        fst (post_build env req w) =
          HttpResponse 500
            (Some (error_body
                     match fst (build_image_finally env dir w1) with
                     | Ok _ => exn_str e
                     | Raise _ => "Internal server error"
                     end)) ∧
        (is_Some (fs w1 !! dir) → fst (build_image_finally env dir w1) = Ok tt) ∧
        (∀ e', fst (build_image_finally env dir w1) = Raise e' →
               fs w1 !! dir = None ∧ stat_error env (trace w1) dir = Some e') ∧
        (∀ w0, clean_build_dir env dir w = (Ok tt, w0) →
               fst (post_build env req w) =
                 HttpResponse 500 (Some (error_body (exn_str e))))
  end.
Proof.
  intros Hj Hb Hd Hu.
  destruct (urlparse env (PyStr.strip s)) as [parsed | e] eqn:Hp.
  - intros Hs Hn name dir e w1 Hrun.
    assert (Hacc : accepted env req (PyStr.strip s) parsed).
    { repeat split; try done. by exists d, s. }
    assert (Hresp : fst (post_build env req w) =
              HttpResponse 500
                (Some (error_body
                         match fst (build_image_finally env dir w1) with
                         | Ok _ => exn_str e
                         | Raise _ => "Internal server error"
                         end))).
    { rewrite (post_build_accepted _ _ _ _ _ Hacc). cbv zeta. fold name. fold dir.
      rewrite Hrun. cbn [fst snd answer].
      by destruct (fst (build_image_finally env dir w1)). }
    split; [exact Hresp |]. split; [apply build_image_finally_present |].
    split; [apply build_image_finally_raises |].
    intros w0 H0. rewrite Hresp.
    pose proof (build_image_try_present env dir (PyStr.strip s) name w w0 H0) as Hdir.
    rewrite Hrun in Hdir. cbn [snd] in Hdir.
    by rewrite (build_image_finally_present _ _ _ Hdir).
  - unfold post_build, build_image. rewrite Hj. cbn.
    unfold get_json. rewrite Hb. rewrite run_bind. cbn. rewrite Hd. cbn.
    rewrite run_bind. cbn. rewrite run_bind. cbn. rewrite Hu. cbn.
    unfold try_except, build_image_validated. rewrite run_bind. cbn.
    by rewrite Hp.
Qed.

Lemma pipeline_errors_reported_witness :
  let text := "[Errno 2] No such file or directory: 'git'" in
  let env := Scenario.with_git (λ _ _ _, Raise (Exn OSError text))
                               (Scenario.healthy Scenario.bare) in
  (fst (post_build env (Scenario.build_request Scenario.app_url) Scenario.empty_world) =
   HttpResponse 500 (Some (error_body text))) ∧
  (post_build env (Scenario.build_request "http://[") Scenario.empty_world =
   (HttpResponse 500 (Some (error_body "Internal server error")), Scenario.empty_world)) ∧
  (fst (post_build (Scenario.strict_names (Scenario.healthy Scenario.bare))
                   (Scenario.build_request Scenario.long_url) Scenario.empty_world) =
   HttpResponse 500 (Some (error_body "Internal server error"))).
Proof.
  cbv zeta.
  pose (env := Scenario.with_git
                 (λ _ _ _, Raise (Exn OSError "[Errno 2] No such file or directory: 'git'"))
                 (Scenario.healthy Scenario.bare)).
  pose (strict := Scenario.strict_names (Scenario.healthy Scenario.bare)).
  split; [| split].
  - destruct (pipeline_errors_reported env (Scenario.build_request Scenario.app_url)
                [("repo_url", JStr Scenario.app_url)] Scenario.app_url Scenario.empty_world
                eq_refl eq_refl eq_refl eq_refl eq_refl eq_refl
                (Exn OSError "[Errno 2] No such file or directory: 'git'")
                (snd (build_image_try env Scenario.app_url "app" "/tmp/builds/app"
                        Scenario.empty_world))
                eq_refl) as (_ & _ & _ & H).
    exact (H (snd (clean_build_dir env "/tmp/builds/app" Scenario.empty_world)) eq_refl).
  - exact (pipeline_errors_reported env (Scenario.build_request "http://[")
             [("repo_url", JStr "http://[")] "http://[" Scenario.empty_world
             eq_refl eq_refl eq_refl eq_refl).
  - pose (parsed := ParseResult "https" "github.com"
                                ("/user/" +:+ Scenario.long_name +:+ ".git")).
    pose proof (pipeline_errors_reported strict (Scenario.build_request Scenario.long_url)
                  [("repo_url", JStr Scenario.long_url)] Scenario.long_url
                  Scenario.empty_world eq_refl eq_refl eq_refl
                  ltac:(vm_compute; reflexivity)) as H.
    assert (Hp : urlparse strict (PyStr.strip Scenario.long_url) = Ok parsed)
      by (vm_compute; reflexivity).
    rewrite Hp in H.
    destruct (H ltac:(vm_compute; reflexivity) ltac:(vm_compute; reflexivity)
                (Exn RuntimeError
                   ("Failed to clean build directory after 3 attempts: "
                    +:+ "/tmp/builds/" +:+ Scenario.long_name))
                (snd (build_image_try strict (PyStr.strip Scenario.long_url)
                        (repo_name_of strict parsed)
                        (build_dir_of (repo_name_of strict parsed))
                        Scenario.empty_world))
                ltac:(vm_compute; reflexivity)) as [Hresp _].
    etrans; [exact Hresp |]. vm_compute. reflexivity.
Defined.

(** ** The engine connection *)


Lemma github_pages_override_within env P url dir :
  (∀ p, P (EvStat p)) → (∀ p c, P (EvWrite p c)) →
  runs_within P (github_pages_override env url dir).
Proof.
  intros H1 H2. unfold github_pages_override.
  destruct (PyStr.contains _ _); [| apply runs_within_ret].
  apply runs_within_bind; [by apply file_exists_within |].
  intros []; [apply runs_within_ret | by apply write_file_within].
Qed.





(** ** The build log *)

(** The slice [l[-20:]] keeps the final 20 elements. *)
Lemma last20_final {A} (l : list A) : last20 l = final 20 l.
Proof. unfold last20, final. by rewrite take_reverse, reverse_involutive. Qed.

Lemma last20_length {A} (l : list A) : length (last20 l) = Nat.min 20 (length l).
Proof. unfold last20. rewrite length_drop. lia. Qed.

Lemma last20_suffix {A} (l : list A) : last20 l `suffix_of` l.
Proof. apply suffix_drop. Qed.

(** The comprehension computes what the specification words describe. *)
Lemma stream_lines_spec build_logs ls :
  stream_lines build_logs = Ok ls →
  ls = filter (λ s, s ≠ EmptyString) (PyStr.strip <$> omap stream_of build_logs).
Proof.
  revert ls. induction build_logs as [| line rest IH]; intros ls.
  - by intros [= <-].
  - cbn [stream_lines].
    change (omap stream_of (line :: rest))
      with (match stream_of line with
            | Some s => s :: omap stream_of rest
            | None => omap stream_of rest
            end).
    unfold stream_of at 1.
    destruct (dict_get "stream" line) as [v |]; [| by apply IH].
    destruct v as [| | | | s | |]; try discriminate. cbn [str_strip].
    destruct (stream_lines rest) as [ls' |]; [| discriminate].
    intros [= <-]. rewrite fmap_cons, filter_cons, (IH ls' eq_refl).
    destruct (PyStr.strip s); cbn [PyStr.truthy].
    + by rewrite decide_False by auto.
    + by rewrite decide_True by done.
Qed.

(** The comprehension returns when every [stream] value is a text, and
    otherwise raises at the first one that is not. *)
Lemma stream_lines_outcome build_logs :
  match stream_lines build_logs with
  | Ok _ => Forall stream_is_text build_logs
  | Raise e =>
      ∃ pre line v post,
        build_logs = pre ++ line :: post ∧
        Forall stream_is_text pre ∧
        dict_get "stream" line = Some v ∧
        (∀ s, v ≠ JStr s) ∧
        e = no_attribute v "strip"
  end.
Proof.
  induction build_logs as [| line rest IH]; cbn [stream_lines]; [constructor |].
  destruct (dict_get "stream" line) as [v |] eqn:Hv.
  - destruct v as [| | | | s | |]; cbn [str_strip];
      try (exists [], line; eexists _, rest; split; [done |]; split; [constructor |];
           split; [exact Hv |]; split; [by intros ? [=] | reflexivity]).
    assert (Hline : stream_is_text line).
    { intros v. rewrite Hv. intros [= <-]. eauto. }
    destruct (stream_lines rest) as [ls | e].
    + by constructor.
    + destruct IH as (pre & l & v & post & -> & Hpre & Hd & Hn & ->).
      exists (line :: pre), l, v, post. split; [done |]. split; [by constructor | done].
  - assert (Hline : stream_is_text line).
    { intros v. by rewrite Hv. }
    destruct (stream_lines rest) as [ls | e].
    + by constructor.
    + destruct IH as (pre & l & v & post & -> & Hpre & Hd & Hn & ->).
      exists (line :: pre), l, v, post. split; [done |]. split; [by constructor | done].
Qed.

Lemma filter_logs_spec build_logs logs :
  filter_logs build_logs = Ok logs →
  let lines := filter (λ s, s ≠ EmptyString)
                      (PyStr.strip <$> omap stream_of build_logs) in
  logs = log_tail_spec build_logs ∧
  Forall stream_is_text build_logs ∧
  logs `suffix_of` lines ∧
  length logs = Nat.min 20 (length lines) ∧
  EmptyString ∉ logs.
Proof.
  unfold filter_logs, log_tail_spec. pose proof (stream_lines_outcome build_logs) as Ho.
  destruct (stream_lines build_logs) as [ls |] eqn:E; [| discriminate].
  intros [= <-]. apply stream_lines_spec in E as ->. cbv zeta.
  split; [apply last20_final |]. split; [done |].
  split; [apply last20_suffix |]. split; [apply last20_length |].
  intros H. unfold last20 in H. apply subseteq_drop in H.
  by apply list_elem_of_filter in H as [? _].
Qed.

Lemma ensure_dockerfile_within env P dir :
  (∀ p, P (EvStat p)) → (∀ p c, P (EvWrite p c)) →
  runs_within P (ensure_dockerfile env dir).
Proof.
  intros H1 H2. unfold ensure_dockerfile.
  apply runs_within_bind; [by apply file_exists_within |].
  intros []; [apply runs_within_ret |].
  apply runs_within_bind; [| intros ty; by apply write_file_within].
  unfold detect_project_type.
  apply runs_within_bind; [by apply file_exists_within |].
  intros []; [apply runs_within_ret |].
  apply runs_within_bind; [by apply file_exists_within |].
  intros []; apply runs_within_ret.
Qed.

(** When the image builder returns, its last step was the engine call,
    made in the world [w0] that the recipe step left, and the log it returns
    is the filtered output of that call. *)
Lemma build_docker_image_ok_call env dir name w img logs w' :
  build_docker_image env dir name w = (Ok (img, logs), w') →
  ∃ w0 build_logs,
    extends (λ ev, ¬ engine_event ev) w w0 ∧
    images_build env (trace w0) dir (image_tag name) (fs w0 !! dir) = Ok (img, build_logs) ∧
    filter_logs build_logs = Ok logs ∧
    w' = log_event (EvEngineBuild dir (image_tag name) (read_file (fs w0) dir "Dockerfile"))
                   w0.
Proof.
  unfold build_docker_image. destruct (client env); [| discriminate]. cbn [negb].
  unfold try_except, build_docker_image_try. rewrite run_bind.
  destruct (ensure_dockerfile env dir w) as [[[] | e] w1] eqn:E0.
  2: { unfold build_docker_image_except. by destruct (exn_cls e). }
  apply (ensure_dockerfile_within env (λ ev, ¬ engine_event ev)) in E0;
    [| intros ? [] | intros ? ? []].
  rewrite run_bind. unfold client_images_build at 1.
  destruct (images_build env (trace w1) dir (image_tag name) (fs w1 !! dir))
    as [[img' build_logs] | e] eqn:E.
  2: { unfold build_docker_image_except. by destruct (exn_cls e). }
  rewrite run_bind. unfold lift_result at 1.
  destruct (filter_logs build_logs) as [logs' | e] eqn:El.
  2: { unfold build_docker_image_except. by destruct (exn_cls e). }
  rewrite run_bind. unfold lift_result at 1.
  destruct (first_tag img') as [tag | e].
  2: { unfold build_docker_image_except. by destruct (exn_cls e). }
  intros [= <- <- <-]. by exists w1, build_logs.
Qed.


(** A successful run of the inner [try] body: one engine call, its last
    event, with the workspace directory still in place. *)
Lemma build_image_try_ok_call env url name dir w resp w' :
  build_image_try env url name dir w = (Ok resp, w') →
  ∃ img logs tag w0 build_logs,
    extends (λ ev, ¬ engine_event ev) w w0 ∧
    images_build env (trace w0) dir (image_tag name) (fs w0 !! dir) = Ok (img, build_logs) ∧
    filter_logs build_logs = Ok logs ∧
    w' = log_event (EvEngineBuild dir (image_tag name) (read_file (fs w0) dir "Dockerfile"))
                   w0 ∧
    is_Some (fs w' !! dir) ∧
    first_tag img = Ok tag ∧
    resp = Response 200 (success_body tag logs).
Proof.
  intros H. pose proof H as H'. revert H.
  unfold build_image_try. rewrite run_bind.
  destruct (clean_build_dir env dir w) as [[[] | e] w1] eqn:E1; [| discriminate].
  pose proof (build_image_try_present env dir url name w w1 E1) as Hdir.
  rewrite H' in Hdir. cbn [snd] in Hdir.
  apply (clean_loop_within env (λ ev, ¬ engine_event ev) 3 dir) in E1; [| intros [] ..].
  rewrite run_bind.
  destruct (clone_repository env url dir w1) as [[[] | e] w2] eqn:E2; [| discriminate].
  apply (clone_repository_within env (λ ev, ¬ engine_event ev) url dir) in E2;
    [| intros []].
  rewrite run_bind.
  destruct (github_pages_override env url dir w2) as [[[] | e] w3] eqn:E3; [| discriminate].
  apply (github_pages_override_within env (λ ev, ¬ engine_event ev) url dir) in E3;
    [| intros ? [] | intros ? ? []].
  rewrite run_bind.
  destruct (build_docker_image env dir name w3) as [[[img logs] | e] w4] eqn:E4;
    [| discriminate].
  apply build_docker_image_ok_call in E4 as (w0 & build_logs & X4 & Hi & Hl & ->).
  rewrite run_bind. unfold lift_result.
  destruct (first_tag img) as [tag | e] eqn:Et; [| discriminate].
  intros [= <- <-]. exists img, logs, tag, w0, build_logs.
  repeat split; try done. eauto using extends_trans.
Qed.

(** C8: when /build answers with a success, the request made exactly one
    engine call, for its own workspace and tag, and the [logs] of the
    response are obtained from the output the engine streamed for that call
    by keeping the entries that have a [stream] text, trimming each,
    dropping the empty ones and keeping the final 20 in order; so the list
    has at most 20 entries and no empty string. *)
Theorem build_log_tail (env : Env) (req : request) (w : world) :
  http_status (fst (post_build env req w)) = 200 →
  ∃ url parsed w0 img build_logs tag,
    accepted env req url parsed ∧
    let name := repo_name_of env parsed in
    let dir := build_dir_of name in
    let lines := filter (λ s, s ≠ EmptyString)
                        (PyStr.strip <$> omap stream_of build_logs) in
    let logs := reverse (take 20 (reverse lines)) in
    extends (λ ev, ¬ engine_event ev) w w0 ∧
    images_build env (trace w0) dir (image_tag name) (fs w0 !! dir) = Ok (img, build_logs) ∧
    trace (snd (post_build env req w)) =
      trace w0 ++ [EvEngineBuild dir (image_tag name) (read_file (fs w0) dir "Dockerfile");
                   EvStat dir; EvRmtree dir] ∧
    first_tag img = Ok tag ∧
    fst (post_build env req w) =
      HttpResponse 200
        (Some (JObj [("status", JStr "success");
                     ("image", JStr tag);
                     ("logs", JArr (JStr <$> logs));
                     ("run_command", JStr ("docker run -p 8080:80 " +:+ tag))])) ∧
    logs = log_tail_spec build_logs ∧
    Forall stream_is_text build_logs ∧
    logs `suffix_of` lines ∧
    length logs = Nat.min 20 (length lines) ∧
    EmptyString ∉ logs.
Proof.
  destruct (accepted_or_refused env req) as [(url & parsed & Hacc) | Href].
  2: { intros H. by destruct (Href w) as [? _]. }
  rewrite (post_build_accepted _ _ _ _ _ Hacc). cbv zeta.
  set (name := repo_name_of env parsed). set (dir := build_dir_of name).
  destruct (build_image_try env url name dir w) as [[resp | e] w1] eqn:E.
  2: { cbn [fst snd answer]. by destruct (fst (build_image_finally env dir w1)). }
  intros _.
  apply build_image_try_ok_call
    in E as (img & logs & tag & w0 & build_logs & X & Hi & Hl & -> & Hdir & Ht & ->).
  apply filter_logs_spec in Hl as (Hspec & Htext & Hsuf & Hlen & Hne).
  destruct (build_image_finally_run env dir
              (log_event (EvEngineBuild dir (image_tag name)
                            (read_file (fs w0) dir "Dockerfile")) w0))
    as (rf & wf & Ef & Htrf & Hrf & _).
  cbn [fst snd]. rewrite Ef. cbn [fst snd]. rewrite (Hrf Hdir).
  rewrite decide_True in Htrf by done.
  exists url, parsed, w0, img, build_logs, tag. split; [done |].
  fold name. fold dir. unfold log_tail_spec, final in Hspec. rewrite <- Hspec.
  repeat split; try done.
  rewrite Htrf. cbn. by rewrite <- app_assoc.
Qed.

Lemma build_log_tail_witness :
  let out := post_build (Scenario.healthy Scenario.site)
                        (Scenario.build_request Scenario.app_url) Scenario.empty_world in
  http_status (fst out) = 200 ∧
  ∃ tag logs,
    fst out =
      HttpResponse 200
        (Some (JObj [("status", JStr "success");
                     ("image", JStr tag);
                     ("logs", JArr (JStr <$> logs));
                     ("run_command", JStr ("docker run -p 8080:80 " +:+ tag))])) ∧
    length logs ≤ 20 ∧ EmptyString ∉ logs.
Proof.
  cbv zeta.
  assert (H : http_status (fst (post_build (Scenario.healthy Scenario.site)
                (Scenario.build_request Scenario.app_url) Scenario.empty_world)) = 200)
    by (vm_compute; reflexivity).
  split; [exact H |].
  destruct (build_log_tail _ _ _ H)
    as (url & parsed & w0 & img & build_logs & tag & _ & _ & _ & _ & _ & Hj & _ & _ & _
        & Hlen & Hne).
  eexists tag, _. split; [exact Hj |]. split; [rewrite Hlen; lia | exact Hne].
Defined.

(** * Further properties of the pipeline *)

(** ** Project type detection and recipe generation *)


Lemma detect_project_type_tree dir w (t : tree) :
  fs w !! dir = Some t →
  ∃ w', detect_project_type dir w = (Ok (tree_type t), w') ∧
        fs w' = fs w ∧
        extends (λ ev, ev = EvStat (joinpath dir "package.json") ∨
                       ev = EvStat (joinpath dir "index.html")) w w'.
Proof.
  intros Ht. unfold detect_project_type, tree_type. rewrite run_bind. cbn.
  unfold read_file. rewrite Ht. cbn.
  destruct (bool_decide (is_Some (t !! "package.json"))).
  - eexists. split; [reflexivity |]. split; [done |].
    apply extends_log. by left.
  - rewrite run_bind. cbn. unfold read_file. rewrite Ht. cbn.
    destruct (bool_decide (is_Some (t !! "index.html")));
      (eexists; split; [reflexivity |]; split; [done |]);
      (eapply extends_trans; apply extends_log; [by left | by right]).
Qed.

Lemma detect_project_type_run (P : event → Prop) dir w :
  P (EvStat (joinpath dir "package.json")) →
  P (EvStat (joinpath dir "index.html")) →
  ∃ ty w', detect_project_type dir w = (Ok ty, w') ∧ fs w' = fs w ∧ extends P w w'.
Proof.
  intros H1 H2. unfold detect_project_type. rewrite run_bind. cbn.
  destruct (bool_decide _).
  - eexists _, _. split; [reflexivity |]. split; [done |]. by apply extends_log.
  - rewrite run_bind. cbn.
    destruct (bool_decide _);
      (eexists _, _; split; [reflexivity |]; split; [done |]);
      (eapply extends_trans; by apply extends_log).
Qed.

(** Whatever it finds, the generic generation ends with a Dockerfile in
    place or with an exception. *)
Lemma ensure_dockerfile_run env (P : event → Prop) dir w r w1 :
  P (EvStat (joinpath dir "Dockerfile")) →
  P (EvStat (joinpath dir "package.json")) →
  P (EvStat (joinpath dir "index.html")) →
  (∀ ty, P (EvWrite (joinpath dir "Dockerfile") (template ty))) →
  ensure_dockerfile env dir w = (r, w1) →
  extends P w w1 ∧ (r = Ok tt → is_Some (read_file (fs w1) dir "Dockerfile")).
Proof.
  intros H1 H2 H3 H4. unfold ensure_dockerfile. rewrite run_bind. cbn.
  destruct (bool_decide (is_Some (read_file (fs w) dir "Dockerfile"))) eqn:Hd.
  - intros [= <- <-]. split; [by apply extends_log |].
    intros _. by apply bool_decide_eq_true in Hd.
  - rewrite run_bind.
    destruct (detect_project_type_run P dir
                (log_event (EvStat (joinpath dir "Dockerfile")) w) H2 H3)
      as (ty & w2 & -> & Hfs & X).
    assert (X2 : extends P w w2)
      by (eapply extends_trans; [exact (extends_log P _ w H1) | exact X]).
    unfold write_file.
    destruct (write_error env (trace w2) (joinpath dir "Dockerfile")) as [e |].
    { intros [= <- <-]. split; [| done].
      eapply extends_trans; [exact X2 | by apply extends_log]. }
    destruct (fs w2 !! dir) as [t |]; intros [= <- <-].
    + split; [eapply extends_trans; [exact X2 | by apply extends_set_fs, extends_log] |].
      intros _. cbn. rewrite read_file_insert, lookup_insert_eq. eauto.
    + split; [| done]. eapply extends_trans; [exact X2 | by apply extends_log].
Qed.

(** The image builder, given what its generation step guarantees. *)
Lemma build_docker_image_steps env (P : event → Prop) dir name w r w' :
  (∀ r1 w1, ensure_dockerfile env dir w = (r1, w1) →
            extends P w w1 ∧
            (r1 = Ok tt →
             P (EvEngineBuild dir (image_tag name) (read_file (fs w1) dir "Dockerfile")))) →
  build_docker_image env dir name w = (r, w') →
  extends P w w'.
Proof.
  intros Hens. unfold build_docker_image.
  destruct (negb (client env)).
  { intros [= <- <-]. apply extends_refl. }
  unfold try_except, build_docker_image_try. rewrite run_bind.
  destruct (ensure_dockerfile env dir w) as [[[] | e] w1];
    destruct (Hens _ _ eq_refl) as [X1 Hb].
  2: { unfold build_docker_image_except. destruct (exn_cls e); by intros [= <- <-]. }
  specialize (Hb eq_refl).
  rewrite run_bind. unfold client_images_build at 1.
  assert (X2 : extends P w (log_event (EvEngineBuild dir (image_tag name)
                                         (read_file (fs w1) dir "Dockerfile")) w1))
    by (eapply extends_trans; [exact X1 | by apply extends_log]).
  destruct (images_build env (trace w1) dir (image_tag name) (fs w1 !! dir))
    as [[img build_logs] | e].
  - rewrite run_bind. unfold lift_result at 1.
    destruct (filter_logs build_logs) as [logs | e].
    + rewrite run_bind. unfold lift_result at 1.
      destruct (first_tag img) as [tag | e].
      * by intros [= <- <-].
      * unfold build_docker_image_except.
        destruct (exn_cls e); by intros [= <- <-].
    + unfold build_docker_image_except.
      destruct (exn_cls e); by intros [= <- <-].
  - unfold build_docker_image_except.
    destruct (exn_cls e); by intros [= <- <-].
Qed.

Lemma github_pages_override_within_at env (P : event → Prop) url dir :
  P (EvStat (joinpath dir "Dockerfile")) →
  P (EvWrite (joinpath dir "Dockerfile") (template Static)) →
  runs_within P (github_pages_override env url dir).
Proof.
  intros H1 H2. unfold github_pages_override.
  destruct (PyStr.contains _ _); [| apply runs_within_ret].
  apply runs_within_bind; [by apply file_exists_within |].
  intros []; [apply runs_within_ret | by apply write_file_within].
Qed.

(** The inner [try] body, for a predicate that admits the operations of
    each step on its own workspace. *)
Lemma build_image_try_within env (P : event → Prop) url name dir :
  P (EvStat dir) → P (EvRmtree dir) → P (EvMkdir dir) → P (EvSleep 1) →
  P (EvClone url dir) →
  P (EvStat (joinpath dir "Dockerfile")) →
  P (EvStat (joinpath dir "package.json")) →
  P (EvStat (joinpath dir "index.html")) →
  (∀ ty, P (EvWrite (joinpath dir "Dockerfile") (template ty))) →
  (∀ c, P (EvEngineBuild dir (image_tag name) (Some c))) →
  runs_within P (build_image_try env url name dir).
Proof.
  intros H1 H2 H3 H4 H5 H6 H7 H8 H9 H10. unfold build_image_try.
  apply runs_within_bind; [by apply clean_loop_within |]. intros _.
  apply runs_within_bind; [by apply clone_repository_within |]. intros _.
  apply runs_within_bind; [by apply github_pages_override_within_at |]. intros _.
  apply runs_within_bind.
  - intros w r w'. apply build_docker_image_steps.
    intros r1 w1 E. eapply ensure_dockerfile_run in E as [X Hs]; eauto.
    split; [done |]. intros Hr. destruct (Hs Hr) as [c ->]. apply H10.
  - intros [img logs]. apply runs_within_bind; [apply runs_within_lift |].
    intros tag. apply runs_within_ret.
Qed.

(** ** What a build touches *)

(** X2: the engine is never asked to build a context without a Dockerfile:
    in every /build request, whatever the environment does, each image
    build is requested only after a Dockerfile was found or written. *)
Theorem engine_always_given_recipe (env : Env) (req : request) (w : world) :
  extends has_recipe w (snd (post_build env req w)).
Proof.
  apply post_build_within, build_image_within; try done.
  intros url name dir. apply build_image_try_within; try done.
  intros c. cbn. eauto.
Qed.



(** Without a Dockerfile, the generic generation writes the template of the
    detected type. *)
Lemma ensure_dockerfile_absent env dir w (t : tree) r w1 :
  fs w !! dir = Some t →
  t !! "Dockerfile" = None →
  ensure_dockerfile env dir w = (r, w1) →
  extends (recipe_is (template (tree_type t))) w w1 ∧
  (r = Ok tt → read_file (fs w1) dir "Dockerfile" = Some (template (tree_type t))).
Proof.
  intros Ht Hnone. unfold ensure_dockerfile. rewrite run_bind. cbn.
  assert (Hread : read_file (fs w) dir "Dockerfile" = None).
  { unfold read_file. by rewrite Ht. }
  rewrite Hread, bool_decide_eq_false_2 by (by intros [? ?]).
  rewrite run_bind.
  destruct (detect_project_type_tree dir
              (log_event (EvStat (joinpath dir "Dockerfile")) w) t Ht)
    as (w2 & -> & Hfs & X).
  assert (X2 : extends (recipe_is (template (tree_type t))) w w2).
  { eapply extends_trans;
      [exact (extends_log _ (EvStat (joinpath dir "Dockerfile")) w I) |].
    destruct X as (evs & Htr & Hall). exists evs. split; [done |].
    eapply Forall_impl; [exact Hall |]. by intros ev [-> | ->]. }
  unfold write_file.
  destruct (write_error env (trace w2) (joinpath dir "Dockerfile")) as [e |].
  { intros [= <- <-]. split; [| done].
    eapply extends_trans; [exact X2 | by apply extends_log]. }
  rewrite Hfs. cbn [fs log_event]. rewrite Ht. intros [= <- <-].
  split; [eapply extends_trans; [exact X2 | by apply extends_set_fs, extends_log] |].
  intros _. cbn. rewrite read_file_insert. apply lookup_insert_eq.
Qed.

Lemma github_pages_override_skipped env url dir w :
  PyStr.contains "github.io" (PyStr.lower url) = false →
  github_pages_override env url dir w = (Ok tt, w).
Proof. intros H. unfold github_pages_override. by rewrite H. Qed.

Lemma build_image_try_generic env url name dir ty :
  PyStr.contains "github.io" (PyStr.lower url) = false →
  (∀ h u d t, git_clone env h u d = Ok t →
              t !! "Dockerfile" = None ∧ tree_type t = ty) →
  runs_within (recipe_is (template ty)) (build_image_try env url name dir).
Proof.
  intros Hurl Hgit w r w'. unfold build_image_try. rewrite run_bind.
  destruct (clean_build_dir env dir w) as [[[] | e] w1] eqn:E1;
    (assert (X1 : extends (recipe_is (template ty)) w w1)
      by (eapply (clean_loop_within env _ 3 dir); [done .. | exact E1]));
    [| by intros [= <- <-]].
  rewrite run_bind.
  destruct (clone_repository env url dir w1) as [[[] | e] w2] eqn:E2;
    (assert (X2 : extends (recipe_is (template ty)) w w2)
      by (eapply extends_trans;
          [exact X1 | eapply (clone_repository_within env _ url dir); [done | exact E2]]));
    [| by intros [= <- <-]].
  apply clone_repository_ok_inv in E2 as (t & Hg & Hfs & _).
  assert (Hdir : fs w2 !! dir = Some t) by (by rewrite Hfs, lookup_insert_eq).
  destruct (Hgit _ _ _ _ Hg) as [Hnone <-].
  rewrite run_bind, (github_pages_override_skipped _ _ _ _ Hurl), run_bind.
  assert (Hens : ∀ r1 w3, ensure_dockerfile env dir w2 = (r1, w3) →
            extends (recipe_is (template (tree_type t))) w2 w3 ∧
            (r1 = Ok tt →
             recipe_is (template (tree_type t))
               (EvEngineBuild dir (image_tag name) (read_file (fs w3) dir "Dockerfile")))).
  { intros r1 w3 E3.
    destruct (ensure_dockerfile_absent env dir w2 t r1 w3 Hdir Hnone E3) as [X3 Hc].
    split; [done |]. intros Hr. cbn. by apply Hc. }
  destruct (build_docker_image env dir name w2) as [[[img logs] | e] w4] eqn:E4;
    apply (build_docker_image_steps _ _ _ _ _ _ _ Hens) in E4.
  - apply build_image_try_tail. eauto using extends_trans.
  - intros [= <- <-]. eauto using extends_trans.
Qed.

(** X5: for an accepted request whose URL does not contain [github.io]
    (in any letter case) and whose clone delivers no Dockerfile, the only
    recipe written, and the one the engine builds from, is the template of
    the project type detected from the cloned files: [node] with a
    [package.json], else [static] with an [index.html], else [default]. *)
Theorem generic_recipe_by_detection (env : Env) (req : request) (url : string)
    (parsed : parse_result) (w : world) (ty : project_type) :
  accepted env req url parsed →
  PyStr.contains "github.io" (PyStr.lower url) = false →
  (∀ h u d t, git_clone env h u d = Ok t →
              t !! "Dockerfile" = None ∧ tree_type t = ty) →
  extends (recipe_is (template ty)) w (snd (post_build env req w)).
Proof.
  intros Hacc Hurl Hgit.
  rewrite (post_build_accepted _ _ _ _ _ Hacc). cbv zeta.
  set (name := repo_name_of env parsed). set (dir := build_dir_of name).
  destruct (build_image_try env url name dir w) as [r w1] eqn:E1. cbn [fst snd].
  destruct (build_image_finally env dir w1) as [rf wf] eqn:Ef. cbn [fst snd].
  eapply extends_trans.
  - eapply (build_image_try_generic env url name dir ty Hurl Hgit), E1.
  - eapply (build_image_finally_within env _ dir), Ef; done.
Qed.

Lemma generic_recipe_by_detection_witness :
  let repo : tree := {[ "package.json" := "{}"; "index.html" := "<p>hi</p>" ]} in
  let out := post_build (Scenario.healthy repo)
                        (Scenario.build_request Scenario.app_url) Scenario.empty_world in
  EvEngineBuild "/tmp/builds/app" "builder/app:latest"
                (Some DOCKERFILE_TEMPLATES.node) ∈ trace (snd out) ∧
  extends (recipe_is DOCKERFILE_TEMPLATES.node) Scenario.empty_world (snd out).
Proof.
  cbv zeta. split.
  - vm_compute. set_solver.
  - apply (generic_recipe_by_detection
             (Scenario.healthy {[ "package.json" := "{}"; "index.html" := "<p>hi</p>" ]})
             (Scenario.build_request Scenario.app_url) Scenario.app_url
             (ParseResult "https" "github.com" "/user/app.git") _ Node).
    + repeat split; try reflexivity. by eexists _, _.
    + vm_compute. reflexivity.
    + intros h u d t [= <-]. split; vm_compute; reflexivity.
Defined.

(** ** Failures of the engine *)







(** X8: the image builder never lets an engine exception through as it is:
    whatever it raises is neither a [BuildError] nor an [APIError]. *)
Theorem builder_converts_engine_errors (env : Env) (dir name : string)
    (w : world) (e : exn) (w' : world) :
  build_docker_image env dir name w = (Raise e, w') →
  exn_cls e ≠ BuildError ∧ exn_cls e ≠ APIError.
Proof.
  unfold build_docker_image. destruct (negb (client env)).
  { by intros [= <- <-]. }
  unfold try_except.
  destruct (build_docker_image_try env dir name w) as [[x | e0] w1]; [done |].
  unfold build_docker_image_except.
  destruct (exn_cls e0) eqn:Hc; intros [= <- <-]; cbn; by rewrite ?Hc.
Qed.

Lemma builder_converts_engine_errors_witness :
  let env := Scenario.with_images
               (λ _ _ _ _, Raise (Exn APIError "500 Server Error: no space left on device"))
               (Scenario.healthy Scenario.site) in
  let w := World {[ "/tmp/builds/app" := Scenario.site ]} [] in
  fst (build_docker_image env "/tmp/builds/app" "app" w) =
    Raise (Exn RuntimeError "Docker service error") ∧
  exn_cls (Exn RuntimeError "Docker service error") ≠ BuildError ∧
  exn_cls (Exn RuntimeError "Docker service error") ≠ APIError.
Proof.
  cbv zeta.
  pose (env := Scenario.with_images
                 (λ _ _ _ _, Raise (Exn APIError "500 Server Error: no space left on device"))
                 (Scenario.healthy Scenario.site)).
  pose (w := World {[ "/tmp/builds/app" := Scenario.site ]} []).
  assert (E : build_docker_image env "/tmp/builds/app" "app" w =
              (Raise (Exn RuntimeError "Docker service error"),
               snd (build_docker_image env "/tmp/builds/app" "app" w)))
    by (vm_compute; reflexivity).
  split; [exact (f_equal fst E) |].
  exact (builder_converts_engine_errors env "/tmp/builds/app" "app" w _ _ E).
Defined.

(** ** The build log, further *)

(** X9: the log filter returns exactly when every [stream] value of the
    engine's output is a text; otherwise it raises the [AttributeError] of
    the first [stream] value that is not (every entry before it has a text
    or no [stream] value), and the build is reported as failed. *)
Theorem filter_logs_needs_text (build_logs : list pydict) :
  match filter_logs build_logs with
  | Ok _ => Forall stream_is_text build_logs
  | Raise e =>
      ∃ pre line v post,
        build_logs = pre ++ line :: post ∧
        Forall stream_is_text pre ∧
        dict_get "stream" line = Some v ∧
        (∀ s, v ≠ JStr s) ∧
        e = no_attribute v "strip"
  end.
Proof.
  unfold filter_logs. pose proof (stream_lines_outcome build_logs) as H.
  by destruct (stream_lines build_logs).
Qed.

(** X10: the log tail has [min 20 n] entries, where [n] is the number of
    non-empty trimmed stream lines; up to 20 lines nothing is cut. *)
Theorem log_tail_length (build_logs : list pydict) (logs : list string) :
  filter_logs build_logs = Ok logs →
  let lines := filter (λ s, s ≠ EmptyString)
                      (PyStr.strip <$> omap stream_of build_logs) in
  length logs = Nat.min 20 (length lines) ∧
  (length lines ≤ 20 → logs = lines).
Proof.
  unfold filter_logs.
  destruct (stream_lines build_logs) as [ls |] eqn:E; [| discriminate].
  intros H. injection H as <-.
  apply stream_lines_spec in E. subst ls.
  set (lines := filter _ (_ <$> _)).
  unfold last20. rewrite length_drop. split; [lia |].
  intros H. by replace (length lines - 20) with 0 by lia.
Qed.

Lemma log_tail_length_witness :
  filter_logs Scenario.build_log =
    Ok ["Step 1/4 : FROM nginx:alpine"; "---> 0a1b"; "Successfully built 0a1b"] ∧
  length ["Step 1/4 : FROM nginx:alpine"; "---> 0a1b"; "Successfully built 0a1b"] =
    Nat.min 20 (length (filter (λ s, s ≠ EmptyString)
                               (PyStr.strip <$> omap stream_of Scenario.build_log))).
Proof.
  split; [reflexivity |].
  exact (proj1 (log_tail_length Scenario.build_log _ eq_refl)).
Defined.

(** ** The workspace manager, further *)

Lemma clean_attempt_no_error env dir w :
  (∀ h, mkdir_error env h dir = None) →
  ∃ w',
    clean_attempt env dir w = (Ok tt, w') ∧
    trace w' = trace w ++ EvStat dir ::
               (if decide (is_Some (fs w !! dir)) then [EvRmtree dir] else [])
               ++ [EvMkdir dir].
Proof.
  intros Hmk. unfold clean_attempt. rewrite run_bind. unfold dir_exists.
  destruct (fs w !! dir) as [t |] eqn:Ht.
  - rewrite decide_True by eauto. rewrite run_bind.
    unfold rmtree. cbn.
    destruct (rmtree_outcome env _ dir); unfold mkdir; cbn; rewrite Hmk.
    + rewrite lookup_delete_eq. eexists. split; [reflexivity |]. cbn.
      by rewrite <- !app_assoc.
    + destruct (alter _ dir (fs w) !! dir); eexists; (split; [reflexivity |]); cbn;
        by rewrite <- !app_assoc.
  - rewrite decide_False by (by intros [? ?]). rewrite (Hmk (trace w)).
    assert (Hgo : ∃ w',
              (mret tt;; mkdir env dir) (log_event (EvStat dir) w) = (Ok tt, w') ∧
              trace w' = trace w ++ [EvStat dir; EvMkdir dir]).
    { rewrite run_bind. cbn. unfold mkdir. cbn. rewrite Hmk, Ht.
      eexists. split; [reflexivity |]. cbn. by rewrite <- !app_assoc. }
    by destruct (stat_error env (trace w) dir).
Qed.

(** X13: when the directory creation does not fail, [clean_build_dir]
    returns at its first attempt, without sleeping: it checks the directory,
    removes it if it is there, and creates it. *)
Theorem clean_build_dir_no_delay (env : Env) (dir : string) (w : world) :
  (∀ h, mkdir_error env h dir = None) →
  ∃ w',
    clean_build_dir env dir w = (Ok tt, w') ∧
    trace w' = trace w ++ EvStat dir ::
               (if decide (is_Some (fs w !! dir)) then [EvRmtree dir] else [])
               ++ [EvMkdir dir].
Proof.
  intros Hmk. destruct (clean_attempt_no_error env dir w Hmk) as (w' & E & Htr).
  exists w'. split; [| exact Htr].
  unfold clean_build_dir. cbn [clean_loop]. unfold try_except. by rewrite E.
Qed.

Lemma clean_build_dir_no_delay_witness :
  let env := Scenario.healthy Scenario.bare in
  let dir := "/tmp/builds/app" in
  let w := World {[ dir := {[ "stale.txt" := "old" ]} ]} [] in
  ∃ w', clean_build_dir env dir w = (Ok tt, w') ∧
        trace w' = trace w ++ EvStat dir ::
                   (if decide (is_Some (fs w !! dir)) then [EvRmtree dir] else [])
                   ++ [EvMkdir dir].
Proof.
  cbv zeta.
  apply (clean_build_dir_no_delay (Scenario.healthy Scenario.bare)).
  intros h. reflexivity.
Defined.

(** ** The shape of the answers *)

Lemma post_build_200_inv env req w :
  http_status (fst (post_build env req w)) = 200 →
  ∃ url parsed resp w1,
    accepted env req url parsed ∧
    build_image_try env url (repo_name_of env parsed)
                    (build_dir_of (repo_name_of env parsed)) w = (Ok resp, w1).
Proof.
  destruct (accepted_or_refused env req) as [(url & parsed & Hacc) | Href].
  2: { intros H. by destruct (Href w) as [? _]. }
  rewrite (post_build_accepted _ _ _ _ _ Hacc). cbv zeta.
  destruct (build_image_try env url _ _ w) as [[resp | e] w1] eqn:E; cbn [fst snd answer].
  2: { destruct (fst (build_image_finally env _ w1)); cbn; discriminate. }
  intros _. by exists url, parsed, resp, w1.
Qed.


(** X12: an exception leaves the view function exactly for a request with
    JSON content type whose body does not decode, or decodes to something
    other than an object, or to an object whose [repo_url] is not a text; for
    every other request the handler returns a JSON response. *)
Theorem build_image_raises_iff (env : Env) (req : request) (w : world) :
  (∃ e, fst (build_image env req w) = Raise e) ↔
  is_json req = true ∧
  (json_body req = None ∨
   (∃ data, json_body req = Some data ∧ ∀ d, data ≠ JObj d) ∨
   (∃ d v, json_body req = Some (JObj d) ∧
           dict_get "repo_url" d = Some v ∧ ∀ s, v ≠ JStr s)).
Proof.
  unfold build_image.
  destruct (is_json req); cbn [negb].
  2: { split; [by intros [e [=]] | by intros [[=] _]]. }
  unfold get_json. destruct (json_body req) as [data |].
  2: { split; [intros _; split; [done | by left] | intros _; by eexists]. }
  rewrite run_bind. cbn.
  destruct data as [| | | | | | d]; cbn;
    try (split; [intros _; split; [done |]; right; left; eexists; split; [done |];
                 by intros ? [=]
                | intros _; by eexists]).
  destruct (dict_get "repo_url" d) as [v |] eqn:Hd; cbn.
  2: { rewrite run_bind. cbn. rewrite run_bind. cbn. split; [by intros [e [=]] |].
       intros [_ [[=] | [(data & [= <-] & Hn) | (d' & v & [= <-] & Hv & _)]]].
       - by destruct (Hn d).
       - congruence. }
  rewrite run_bind. cbn.
  destruct v as [| | | | s | |]; cbn;
    try (split; [intros _; split; [done |]; right; right; eexists _, _;
                 split; [done |]; split; [exact Hd |]; by intros ? [=]
                | intros _; by eexists]).
  rewrite run_bind. cbn. split.
  - intros [e He]. exfalso. revert He.
    destruct (PyStr.truthy (PyStr.strip s)); cbn; [| done].
    unfold try_except. by destruct (build_image_validated env _ w) as [[? | ?] ?].
  - intros [_ [[=] | [(data & [= <-] & Hn) | (d' & v & [= <-] & Hv & Hs)]]].
    + by destruct (Hn d).
    + rewrite Hd in Hv. injection Hv as <-. by destruct (Hs s).
Qed.

(** ** The image tag *)

Lemma contains_char_app c a b :
  PyStr.contains (String c EmptyString) (a +:+ b) =
  PyStr.contains (String c EmptyString) a || PyStr.contains (String c EmptyString) b.
Proof.
  induction a as [| x a IH].
  - change (EmptyString +:+ b) with b. by destruct b.
  - change (String x a +:+ b) with (String x (a +:+ b)).
    cbn [PyStr.contains]. rewrite !prefix_cons, IH.
    destruct (decide (c = x)).
    + by destruct (a +:+ b), a.
    + by rewrite orb_assoc.
Qed.

Lemma replace_removes a b s :
  a ≠ b → PyStr.contains (String a EmptyString) (PyStr.replace a b s) = false.
Proof.
  intros Hab. induction s as [| c s IH]; [done |].
  cbn [PyStr.replace PyStr.contains]. rewrite prefix_cons, IH, orb_false_r.
  destruct (Ascii.eqb_spec c a) as [-> | Hc].
  - by rewrite decide_False.
  - by rewrite decide_False by congruence.
Qed.

(** X14: the image tag never contains a period, whatever the repository
    name is. *)
Theorem image_tag_has_no_period (repo_name : string) :
  PyStr.contains "." (image_tag repo_name) = false.
Proof.
  unfold image_tag.
  rewrite (contains_char_app "." "builder/"), (contains_char_app "."%char).
  by rewrite replace_removes.
Qed.

(** ** What a success stands for *)

Lemma build_docker_image_ok_trace env dir name w img logs w' :
  build_docker_image env dir name w = (Ok (img, logs), w') →
  client env = true ∧
  ∃ evs c, trace w' = trace w ++ evs ++ [EvEngineBuild dir (image_tag name) (Some c)].
Proof.
  unfold build_docker_image. destruct (client env); [| discriminate]. cbn [negb].
  unfold try_except, build_docker_image_try. rewrite run_bind.
  destruct (ensure_dockerfile env dir w) as [[[] | e] w1] eqn:E.
  2: { unfold build_docker_image_except. by destruct (exn_cls e). }
  apply (ensure_dockerfile_run env (λ _, True)) in E as [(evs & Htr & _) Hs]; try done.
  destruct (Hs eq_refl) as [c Hc].
  rewrite run_bind. unfold client_images_build at 1. rewrite Hc.
  destruct (images_build env (trace w1) dir (image_tag name) (fs w1 !! dir))
    as [[img' build_logs] | e].
  2: { unfold build_docker_image_except. by destruct (exn_cls e). }
  rewrite run_bind. unfold lift_result at 1.
  destruct (filter_logs build_logs) as [logs' | e].
  2: { unfold build_docker_image_except. by destruct (exn_cls e). }
  rewrite run_bind. unfold lift_result at 1.
  destruct (first_tag img') as [tag | e].
  2: { unfold build_docker_image_except. by destruct (exn_cls e). }
  intros [= <- <- <-]. split; [done |]. exists evs, c. cbn.
  by rewrite Htr, <- app_assoc.
Qed.

Lemma build_image_try_ok_trace env url name dir w resp w' :
  build_image_try env url name dir w = (Ok resp, w') →
  client env = true ∧
  ∃ evs1 evs2 c,
    trace w' = trace w ++ evs1 ++ [EvClone url dir] ++ evs2
               ++ [EvEngineBuild dir (image_tag name) (Some c)].
Proof.
  unfold build_image_try. rewrite run_bind.
  destruct (clean_build_dir env dir w) as [[[] | e] w1] eqn:E1; [| discriminate].
  apply (clean_loop_within env (λ _, True) 3 dir I I I I) in E1 as (evs1 & Htr1 & _).
  rewrite run_bind.
  destruct (clone_repository env url dir w1) as [[[] | e] w2] eqn:E2; [| discriminate].
  apply clone_repository_ok_inv in E2 as (t & _ & _ & Htr2).
  rewrite run_bind.
  destruct (github_pages_override env url dir w2) as [[[] | e] w3] eqn:E3; [| discriminate].
  apply (github_pages_override_within env (λ _, True) url dir (λ _, I) (λ _ _, I))
    in E3 as (evs3 & Htr3 & _).
  rewrite run_bind.
  destruct (build_docker_image env dir name w3) as [[[img logs] | e] w4] eqn:E4;
    [| discriminate].
  apply build_docker_image_ok_trace in E4 as (Hc & evs4 & c & Htr4).
  rewrite run_bind. unfold lift_result.
  destruct (first_tag img) as [tag | e]; [| discriminate].
  intros [= <- <-]. split; [done |].
  exists evs1, (evs3 ++ evs4), c.
  rewrite Htr4, Htr3, Htr2, Htr1. by rewrite <- !app_assoc.
Qed.

(** X15: /build answers with a success only when the engine connection
    exists and, in this request and in this order, the repository was
    cloned into the workspace and the engine built that workspace, with a
    Dockerfile in it, under the tag derived from the repository name. *)
Theorem success_means_cloned_and_built (env : Env) (req : request) (w : world) :
  http_status (fst (post_build env req w)) = 200 →
  client env = true ∧
  ∃ url parsed evs1 evs2 evs3 c,
    accepted env req url parsed ∧
    let name := repo_name_of env parsed in
    let dir := build_dir_of name in
    trace (snd (post_build env req w)) =
      trace w ++ evs1 ++ [EvClone url dir] ++ evs2
      ++ [EvEngineBuild dir (image_tag name) (Some c)] ++ evs3.
Proof.
  intros H.
  destruct (post_build_200_inv _ _ _ H) as (url & parsed & resp & w1 & Hacc & Hrun).
  destruct (build_image_try_ok_trace _ _ _ _ _ _ _ Hrun) as (Hc & evs1 & evs2 & c & Htr).
  split; [done |].
  destruct (build_image_finally_run env (build_dir_of (repo_name_of env parsed)) w1)
    as (rf & wf & Ef & Htrf & _).
  eexists url, parsed, evs1, evs2, _, c. split; [done |]. cbv zeta.
  rewrite (post_build_accepted _ _ _ _ _ Hacc). cbv zeta.
  rewrite Hrun. cbn [fst snd]. rewrite Ef. cbn [snd].
  rewrite Htrf, Htr. by rewrite <- !app_assoc.
Qed.

Lemma success_means_cloned_and_built_witness :
  let out := post_build (Scenario.healthy Scenario.site)
                        (Scenario.build_request Scenario.app_url) Scenario.empty_world in
  http_status (fst out) = 200 ∧ client (Scenario.healthy Scenario.site) = true.
Proof.
  cbv zeta.
  assert (H : http_status (fst (post_build (Scenario.healthy Scenario.site)
                (Scenario.build_request Scenario.app_url) Scenario.empty_world)) = 200)
    by (vm_compute; reflexivity).
  split; [exact H |].
  exact (proj1 (success_means_cloned_and_built _ _ _ H)).
Defined.

(** ** The other endpoints *)

(** X16: the three endpoints agree about the engine: when any /build
    request succeeds, [GET /] reports [docker_available] true and a healthy
    [GET /health] reports [connected]; and when [GET /] reports it false, no
    /build request succeeds. *)
Theorem endpoints_agree_on_engine (env : Env) (free : N) (gb_text : N → string) :
  (dict_get "docker_available" (match body (home env) with JObj d => d | _ => [] end)
     = Some (JBool true) ↔
   dict_get "docker" (match body (health_check env (Ok free) gb_text) with
                      | JObj d => d | _ => [] end)
     = Some (JStr "connected")) ∧
  (∀ req w, http_status (fst (post_build env req w)) = 200 →
            body (home env) =
            JObj [("status", JStr "ready");
                  ("endpoints", JObj [("build", JStr "POST /build");
                                      ("health", JStr "GET /health")]);
                  ("docker_available", JBool true)]).
Proof.
  split.
  - unfold home, health_check. cbn. destruct (client env); split; intros [=]; done.
  - intros req w H.
    destruct (post_build_200_inv _ _ _ H) as (url & parsed & resp & w1 & _ & Hrun).
    destruct (build_image_try_ok_trace _ _ _ _ _ _ _ Hrun) as [Hc _].
    unfold home. by rewrite Hc.
Qed.

Lemma endpoints_agree_on_engine_witness :
  let env := Scenario.healthy Scenario.site in
  http_status (fst (post_build env (Scenario.build_request Scenario.app_url)
                               Scenario.empty_world)) = 200 ∧
  dict_get "docker_available" (match body (home env) with JObj d => d | _ => [] end)
    = Some (JBool true).
Proof.
  cbv zeta.
  assert (H : http_status (fst (post_build (Scenario.healthy Scenario.site)
                (Scenario.build_request Scenario.app_url) Scenario.empty_world)) = 200)
    by (vm_compute; reflexivity).
  split; [exact H |].
  rewrite (proj2 (endpoints_agree_on_engine (Scenario.healthy Scenario.site) 0%N (λ _, "0.0"))
             _ _ H).
  reflexivity.
Defined.

(** ** The repository URL *)

Lemma build_image_guarded_confined env url name dir :
  runs_within (confined url name dir) (build_image_guarded env url name dir).
Proof.
  unfold build_image_guarded. apply runs_within_try_finally.
  - apply runs_within_try_except; [| apply build_image_except_within].
    apply build_image_try_within; cbn; eauto 10.
  - apply build_image_finally_within; cbn; eauto.
Qed.

(** X17: the URL an accepted request hands to [git clone] is the request's
    [repo_url] stripped: it is not empty, neither starts nor ends with a
    white space character, ASCII or not, and no other URL is cloned. *)
Theorem cloned_url_is_trimmed (env : Env) (req : request) (url : string)
    (parsed : parse_result) (w : world) :
  accepted env req url parsed →
  (∃ d s, json_body req = Some (JObj d) ∧
          dict_get "repo_url" d = Some (JStr s) ∧ url = PyStr.strip s) ∧
  url ≠ EmptyString ∧
  space_prefixed url = false ∧ space_suffixed url = false ∧
  ∃ evs, trace (snd (post_build env req w)) = trace w ++ evs ∧
         ∀ u d, EvClone u d ∈ evs → u = url.
Proof.
  intros Hacc. split; [apply Hacc |].
  assert (Hne : url ≠ EmptyString).
  { destruct Hacc as (_ & _ & Hu & _). by intros ->. }
  assert (Htrim : space_prefixed url = false ∧ space_suffixed url = false).
  { destruct Hacc as (_ & (d & s & _ & _ & ->) & _). apply strip_trimmed. }
  destruct Htrim as [H1 H2]. do 3 (split; [done |]).
  unfold post_build. rewrite (build_image_accepted _ _ _ _ _ Hacc).
  destruct (try_except _ _ w) as [r w'] eqn:E. cbn [snd].
  revert E. intros E.
  assert (Hrun : runs_within (confined url (repo_name_of env parsed)
                                (build_dir_of (repo_name_of env parsed)))
                   (try_except
                      (build_image_guarded env url (repo_name_of env parsed)
                         (build_dir_of (repo_name_of env parsed)))
                      (λ _, mret (Response 500 (error_body "Internal server error"))))).
  { apply runs_within_try_except; [apply build_image_guarded_confined |].
    intros _. apply runs_within_ret. }
  apply Hrun in E as (evs & Htr & Hall).
  exists evs. split; [done |]. intros u d Hin.
  rewrite Forall_forall in Hall. by destruct (Hall _ Hin) as [-> _].
Qed.

Lemma cloned_url_is_trimmed_witness :
  let nbsp := PyStr.enc2 194 160 in
  let req := Request true (Some (JObj [("repo_url",
               JStr (nbsp +:+ " " +:+ Scenario.app_url +:+ " " +:+ nbsp))])) in
  let out := post_build (Scenario.healthy Scenario.site) req Scenario.empty_world in
  EvClone Scenario.app_url "/tmp/builds/app" ∈ trace (snd out) ∧
  space_prefixed Scenario.app_url = false ∧ space_suffixed Scenario.app_url = false.
Proof.
  cbv zeta. split; [vm_compute; set_solver |].
  destruct (cloned_url_is_trimmed (Scenario.healthy Scenario.site)
              (Request true (Some (JObj [("repo_url",
                 JStr (PyStr.enc2 194 160 +:+ " " +:+ Scenario.app_url +:+ " "
                       +:+ PyStr.enc2 194 160))])))
              Scenario.app_url (ParseResult "https" "github.com" "/user/app.git")
              Scenario.empty_world) as (_ & _ & H1 & H2 & _); [| done].
  repeat split; try reflexivity. eexists _, _. repeat split; vm_compute; reflexivity.
Defined.

Lemma lower_ascii_idemp a : PyStr.lower_ascii (PyStr.lower_ascii a) = PyStr.lower_ascii a.
Proof. by destruct a as [[] [] [] [] [] [] [] []]. Qed.

Lemma lower_idemp s : PyStr.lower (PyStr.lower s) = PyStr.lower s.
Proof.
  induction s as [| a s IH]; [done |]. cbn. by rewrite lower_ascii_idemp, IH.
Qed.

(** X18: the GitHub Pages rule does not depend on the letter case of the
    URL: two URLs that differ only in case are treated alike, and a URL is
    treated as its lower-case form. *)
Theorem github_pages_rule_ignores_case (env : Env) (url1 url2 dir : string) :
  PyStr.lower url1 = PyStr.lower url2 →
  github_pages_override env url1 dir = github_pages_override env url2 dir ∧
  github_pages_override env url1 dir = github_pages_override env (PyStr.lower url1) dir.
Proof.
  intros H. unfold github_pages_override. by rewrite lower_idemp, H.
Qed.

Lemma github_pages_rule_ignores_case_witness :
  github_pages_override (Scenario.healthy Scenario.bare)
    "https://GitHub.IO/user/site" "/tmp/builds/site" =
  github_pages_override (Scenario.healthy Scenario.bare)
    "https://github.io/user/site" "/tmp/builds/site".
Proof.
  exact (proj1 (github_pages_rule_ignores_case (Scenario.healthy Scenario.bare)
                  "https://GitHub.IO/user/site" "https://github.io/user/site"
                  "/tmp/builds/site" eq_refl)).
Defined.
